(** * Session relay between a chat bot and the Einstein AI backend

    A shallow embedding of [index.js]: the session cache, the three backend
    calls (token, session creation, message dispatch), the session resolver
    [getOrCreateSession], the turn handler [botLogic], the periodic cleanup
    and the streaming endpoint, followed by the properties of the relay.

    Conventions of the embedding.
    - Values that come from the network (response bodies, tokens, session
      handles, replies) are JavaScript values, [JsData]; [JStream] is the
      stream object that is the body of a response asked with
      [responseType: 'stream'].
    - [Date.now()] readings and time stamps are integers of milliseconds, [Z].
    - The asynchronous functions are computations in [M], a state and
      exception monad over the [World]: the session cache and the history of
      the effects performed so far.  One handler runs from its start to its
      end without another handler interleaved at its [await]s.
    - The backend and the clock are arbitrary functions of the history: the
      answer to a call may depend on everything that happened before it.
    - [context.sendActivity] and the writes to the HTTP response succeed;
      [console.log] and [console.error] are not recorded.
    - The repository holds a second copy of the program with more logging;
      its functions are the ones below, except for the turn handler, which
      sends its status message earlier ([botLogic_early_status]). *)

From stdpp Require Import gmap strings list fin_maps.
From Stdlib Require Import ZArith Ascii Lia.

#[local] Set Warnings "-register-all".

Open Scope string_scope.
Open Scope Z_scope.

(** ** JavaScript values *)

Inductive JsData : Type :=
| JUndefined
| JNull
| JBool (b : bool)
| JNum (n : Z)
| JStr (s : string)
| JArr (items : list JsData)
| JObj (fields : list (string * JsData))
| JStream.

(** [ToBoolean]: the values that make [x && ...] and [x || ...] take the
    left or the right operand. *)
Definition truthy (v : JsData) : bool :=
  match v with
  | JUndefined | JNull => false
  | JBool b => b
  | JNum n => negb (n =? 0)
  | JStr s => negb (String.eqb s "")
  | JArr _ | JObj _ | JStream => true
  end.

(** The values JSON.stringify cannot print: a stream object refers to itself
    through its socket, and so does every value that holds one. *)
Fixpoint contains_stream (v : JsData) : bool :=
  match v with
  | JStream => true
  | JArr items => existsb contains_stream items
  | JObj fields =>
      existsb (fun field : string * JsData => contains_stream (snd field)) fields
  | _ => false
  end.

(** [String.prototype.includes]: [needle] occurs in [s]. *)
Fixpoint str_includes (needle s : string) : bool :=
  String.prefix needle s ||
  match s with
  | EmptyString => false
  | String _ rest => str_includes needle rest
  end.

(** [Array.prototype.includes] with a string argument: some element is that
    very string. *)
Definition arr_includes (needle : string) (items : list JsData) : bool :=
  existsb (fun x => match x with JStr s => String.eqb s needle | _ => false end)
          items.

Fixpoint assoc (k : string) (fields : list (string * JsData)) : JsData :=
  match fields with
  | [] => JUndefined
  | (k', v) :: rest => if String.eqb k k' then v else assoc k rest
  end.

(** ** Errors and outcomes *)

Record HttpResponse : Type := mkResponse {
  status : Z;
  data : JsData
}.

(** A thrown value: an [Error] (or [TypeError]) object; an error raised by
    axios for an answered request carries the [response]. *)
Record JsError : Type := mkError {
  name : string;
  message : string;
  response : option HttpResponse
}.

Definition Error (msg : string) : JsError := mkError "Error" msg None.
Definition TypeError (msg : string) : JsError := mkError "TypeError" msg None.

Inductive Outcome (A : Type) : Type :=
| Return (a : A)
| Throw (e : JsError).
Arguments Return {A} a.
Arguments Throw {A} e.

(** What an axios call settles to. *)
Inductive AxiosResult : Type :=
| Resolved (r : HttpResponse)
| Rejected (e : JsError).

(** How a backend stream finishes once it has been opened. *)
Inductive StreamEnding : Type :=
| StreamEnd
| StreamError (e : JsError).

(** The body of a [responseType: 'stream'] answer: the ['data'] events in
    their order, then ['end'] or ['error']. *)
Record BackendStream : Type := mkStream {
  chunks : list string;
  ending : StreamEnding
}.

Inductive StreamResult : Type :=
| StreamOpened (body : BackendStream)
| StreamRejected (e : JsError).

(** ** The session cache and the history *)

Record Session : Type := mkSession {
  sessionId : JsData;
  timestamp : Z
}.

Inductive Request : Type :=
| ReqToken
| ReqSession (accessToken : JsData) (externalSessionKey : string)
| ReqMessage (accessToken sessionId : JsData) (sequenceId : Z) (text : JsData)
| ReqStream (accessToken sessionId : JsData) (sequenceId : Z) (text : JsData).

Inductive Event : Type :=
| EvNow (t : Z)
| EvPost (req : Request) (res : AxiosResult)
| EvOpenStream (req : Request) (res : StreamResult)
| EvCacheSet (conversationId : string) (s : Session)
| EvCacheDelete (conversationId : string)
| EvSendActivity (text : JsData)
| EvSetHeader (key value : string)
| EvWrite (frame : string)
| EvEnd.

Record World : Type := mkWorld {
  sessionCache : gmap string Session;
  history : list Event
}.

Definition record (ev : Event) (w : World) : World :=
  mkWorld (sessionCache w) (history w ++ [ev]).

(** ** The monad of handlers *)

Definition M (A : Type) : Type := World -> Outcome A * World.

Definition ret {A} (a : A) : M A := fun w => (Return a, w).
Definition throw {A} (e : JsError) : M A := fun w => (Throw e, w).

Definition bind {A B} (m : M A) (k : A -> M B) : M B :=
  fun w =>
    match m w with
    | (Return a, w') => k a w'
    | (Throw e, w') => (Throw e, w')
    end.

(** [try { m } catch (error) { h error }] *)
Definition try_catch {A} (m : M A) (h : JsError -> M A) : M A :=
  fun w =>
    match m w with
    | (Return a, w') => (Return a, w')
    | (Throw e, w') => h e w'
    end.

Definition lift {A} (o : Outcome A) : M A := fun w => (o, w).

(** The handlers are written with stdpp's notations [x ← m; k] and
    [m;; k]. *)
#[global] Instance M_ret : MRet M := @ret.
#[global] Instance M_bind : MBind M := fun A B k m => bind m k.

(** Property reads as the handlers use them: reading a property of
    [undefined] or [null] throws, a missing property is [undefined]. *)
Definition js_get (v : JsData) (k : string) : Outcome JsData :=
  match v with
  | JUndefined | JNull =>
      Throw (TypeError ("Cannot read properties of undefined (reading '" ++ k ++ "')"))
  | JObj fields => Return (assoc k fields)
  | _ => Return JUndefined
  end.

(** [v[0]] *)
Definition js_first (v : JsData) : Outcome JsData :=
  match v with
  | JUndefined | JNull =>
      Throw (TypeError "Cannot read properties of undefined (reading '0')")
  | JArr items => Return (hd JUndefined items)
  | JStr (String c _) => Return (JStr (String c EmptyString))
  | JObj fields => Return (assoc "0" fields)
  | _ => Return JUndefined
  end.

Definition cache_get (conversationId : string) : M (option Session) :=
  fun w => (Return (sessionCache w !! conversationId), w).

Definition cache_set (conversationId : string) (s : Session) : M unit :=
  fun w => (Return tt,
            mkWorld (<[conversationId := s]> (sessionCache w))
                    (history w ++ [EvCacheSet conversationId s])).

Definition cache_delete (conversationId : string) : M unit :=
  fun w => (Return tt,
            mkWorld (delete conversationId (sessionCache w))
                    (history w ++ [EvCacheDelete conversationId])).

Definition sendActivity (text : JsData) : M unit :=
  fun w => (Return tt, record (EvSendActivity text) w).

(** ** The environment of the process *)

(** The configuration and the outside world: [MIN_SESSION] is the number the
    environment variable of that name denotes when it is set (to a non empty
    integer numeral), [STATUS_MESSAGE] the text of that variable when set;
    [axios_post], [axios_stream] and [Date_now] answer a call from the
    history at that point; [JSON_stringify] is the text JSON.stringify
    prints inside a template literal. *)
Record Env : Type := mkEnv {
  MIN_SESSION : option Z;
  STATUS_MESSAGE : option string;
  axios_post : list Event -> Request -> AxiosResult;
  axios_stream : list Event -> Request -> StreamResult;
  Date_now : list Event -> Z;
  JSON_stringify : JsData -> string
}.

Definition nl : string := String (ascii_of_nat 10) EmptyString.

Section Relay.

Variable env : Env.

(** [(process.env.MIN_SESSION || 30) * 60 * 1000] *)
Definition SESSION_TIMEOUT : Z :=
  match MIN_SESSION env with
  | Some minutes => minutes
  | None => 30
  end * 60 * 1000.

Definition DateNow : M Z :=
  fun w => let t := Date_now env (history w) in
           (Return t, record (EvNow t) w).

(** [await axios.post(...)]: the call is recorded with what it settled to. *)
Definition post (req : Request) : M HttpResponse :=
  fun w =>
    let res := axios_post env (history w) req in
    (match res with
     | Resolved r => Return r
     | Rejected e => Throw e
     end, record (EvPost req res) w).

(** The error axios rejects a [responseType: 'stream'] request with: when
    the backend has answered, the [data] of the response is the response
    stream, whatever the backend has sent as the body. *)
Definition stream_failure (e : JsError) : JsError :=
  mkError (name e) (message e)
          (match response e with
           | Some r => Some (mkResponse (status r) JStream)
           | None => None
           end).

(** [await axios({ ..., responseType: 'stream' })] *)
Definition open_stream (req : Request) : M BackendStream :=
  fun w =>
    let res := axios_stream env (history w) req in
    (match res with
     | StreamOpened body => Return body
     | StreamRejected e => Throw (stream_failure e)
     end, record (EvOpenStream req res) w).

(** ** The backend calls *)

Definition getSalesforceToken : M JsData :=
  try_catch
    (response ← post ReqToken;
     lift (js_get (data response) "access_token"))
    (fun error => throw (Error "Failed to get Salesforce token.")).

Definition createEinsteinSession (accessToken : JsData) (conversationId : string)
  : M JsData :=
  try_catch
    (response ← post (ReqSession accessToken ("teams-chat-" ++ conversationId));
     lift (js_get (data response) "sessionId"))
    (fun error => throw (Error "Failed to create Einstein AI session.")).

(** [response.data.messages[0].message] *)
Definition first_message (d : JsData) : Outcome JsData :=
  match js_get d "messages" with
  | Throw e => Throw e
  | Return messages =>
      match js_first messages with
      | Throw e => Throw e
      | Return m => js_get m "message"
      end
  end.

(** [error.response?.data.includes("session not found")], evaluated on a
    truthy [data]: strings and arrays have the method, on any other value
    the call of [undefined] throws. *)
Definition data_includes (d : JsData) : Outcome bool :=
  match d with
  | JStr s => Return (str_includes "session not found" s)
  | JArr items => Return (arr_includes "session not found" items)
  | _ => Throw (TypeError "error.response?.data.includes is not a function")
  end.

(** [error.response?.status === 404 ||
     (error.response?.data && error.response?.data.includes("session not found"))] *)
Definition invalid_session (error : JsError) : Outcome bool :=
  match response error with
  | None => Return false
  | Some r =>
      if status r =? 404 then Return true
      else if truthy (data r) then data_includes (data r)
      else Return false
  end.

Definition sendEinsteinMessage_catch {A} (error : JsError) : M A :=
  match invalid_session error with
  | Throw e => throw e
  | Return true => throw (Error "SESSION_EXPIRED")
  | Return false => throw (Error "Failed to send message to Einstein AI.")
  end.

Definition sendEinsteinMessage (accessToken sessionId userMessage : JsData)
  : M JsData :=
  try_catch
    (now ← DateNow;
     response ← post (ReqMessage accessToken sessionId now userMessage);
     lift (first_message (data response)))
    sendEinsteinMessage_catch.

(** ** Session resolution *)

(** [cachedSession && (now - cachedSession.timestamp < SESSION_TIMEOUT)] *)
Definition reusable (now : Z) (cachedSession : option Session) : option Session :=
  match cachedSession with
  | Some s => if now - timestamp s <? SESSION_TIMEOUT then Some s else None
  | None => None
  end.

Definition getOrCreateSession (conversationId : string) (accessToken : JsData)
  : M JsData :=
  cachedSession ← cache_get conversationId;
  now ← DateNow;
  match reusable now cachedSession with
  | Some s => mret (sessionId s)
  | None =>
      sessionId ← createEinsteinSession accessToken conversationId;
      cache_set conversationId (mkSession sessionId now);;
      mret sessionId
  end.

(** ** The turn handler *)

Record Activity : Type := mkActivity {
  activity_type : string;
  activity_text : JsData;
  conversation_id : string
}.

(** ["⏳ " + (process.env.STATUS_MESSAGE || "Processing your request...")] *)
Definition status_message : JsData :=
  JStr ("⏳ " ++ match STATUS_MESSAGE env with
                 | Some EmptyString | None => "Processing your request..."
                 | Some text => text
                 end).

Definition error_reply : JsData :=
  JStr "❌ Error communicating with Salesforce Einstein AI.".

(** The body shared by the first attempt and the retry: resolve, dispatch,
    reply. *)
Definition attempt (conversationId : string) (accessToken userMessage : JsData)
  : M unit :=
  sessionId ← getOrCreateSession conversationId accessToken;
  responseMessage ← sendEinsteinMessage accessToken sessionId userMessage;
  sendActivity responseMessage.

Definition botLogic (activity : Activity) : M unit :=
  if String.eqb (activity_type activity) "message" then
    let userMessage := activity_text activity in
    let conversationId := conversation_id activity in
    sendActivity status_message;;
    try_catch
      (accessToken ← getSalesforceToken;
       let retryWithNewSession := false in
       try_catch
         (attempt conversationId accessToken userMessage)
         (fun error =>
            if String.eqb (message error) "SESSION_EXPIRED"
               && negb retryWithNewSession
            then
              cache_delete conversationId;;
              attempt conversationId accessToken userMessage
            else throw error))
      (fun error => sendActivity error_reply)
  else mret tt.

(** The second copy of the program sends a fixed status message, and sends
    it before it looks at the type of the activity. *)
Definition botLogic_early_status (activity : Activity) : M unit :=
  sendActivity (JStr ("⏳ " ++ "Processing your request..."));;
  if String.eqb (activity_type activity) "message" then
    let userMessage := activity_text activity in
    let conversationId := conversation_id activity in
    try_catch
      (accessToken ← getSalesforceToken;
       let retryWithNewSession := false in
       try_catch
         (attempt conversationId accessToken userMessage)
         (fun error =>
            if String.eqb (message error) "SESSION_EXPIRED"
               && negb retryWithNewSession
            then
              cache_delete conversationId;;
              attempt conversationId accessToken userMessage
            else throw error))
      (fun error => sendActivity error_reply)
  else mret tt.

(** ** The periodic cleanup *)

(** One step of the [forEach]: the callback on one entry, on the cache and
    the counter as they are at that step. *)
Definition cleanup_step (now : Z) (conversationId : string) (session : Session)
    (acc : gmap string Session * nat) : gmap string Session * nat :=
  if now - timestamp session >? SESSION_TIMEOUT
  then (delete conversationId (fst acc), S (snd acc))
  else acc.

(** [sessionCache.forEach(...)] with [expiredCount] starting at 0. *)
Definition cleanup_forEach (now : Z) : M nat :=
  fun w =>
    let swept :=
      map_fold (cleanup_step now) (sessionCache w, 0%nat) (sessionCache w) in
    (Return (snd swept), mkWorld (fst swept) (history w)).

(** The callback of [setInterval]; its result is [expiredCount]. *)
Definition cleanup : M nat :=
  now ← DateNow;
  cleanup_forEach now.

(** ** The streaming endpoint *)

Record Query : Type := mkQuery {
  query_conversationId : option string;
  query_message : option string
}.

(** [req.query.conversationId || 'default-conversation'] *)
Definition stream_conversationId (query : Query) : string :=
  match query_conversationId query with
  | Some EmptyString | None => "default-conversation"
  | Some id => id
  end.

Definition stream_text (query : Query) : JsData :=
  match query_message query with
  | Some text => JStr text
  | None => JUndefined
  end.

Definition setHeader (key value : string) : M unit :=
  fun w => (Return tt, record (EvSetHeader key value) w).
Definition res_write (frame : string) : M unit :=
  fun w => (Return tt, record (EvWrite frame) w).
Definition res_end : M unit :=
  fun w => (Return tt, record EvEnd w).

(** The listeners a handler has put on a stream with [.on(...)]. *)
Record Listeners : Type := mkListeners {
  on_data : option (string -> M unit);
  on_end : option (M unit);
  on_error : option (JsError -> M unit)
}.

Fixpoint emit_data (listener : string -> M unit) (cs : list string) : M unit :=
  match cs with
  | [] => mret tt
  | c :: rest => listener c;; emit_data listener rest
  end.

(** The delivery of the stream of an axios response to its listeners: every
    chunk to the ['data'] listener, then ['end'] to the ['end'] listener,
    or the break of the stream to the ['error'] listener; an event without
    a listener runs nothing. *)
Definition emit (ls : Listeners) (body : BackendStream) : M unit :=
  match on_data ls with
  | Some listener => emit_data listener (chunks body)
  | None => mret tt
  end;;
  match ending body with
  | StreamEnd =>
      match on_end ls with
      | Some listener => listener
      | None => mret tt
      end
  | StreamError e =>
      match on_error ls with
      | Some listener => listener e
      | None => mret tt
      end
  end.

Definition data_frame (chunk : string) : string :=
  "data: " ++ chunk ++ nl ++ nl.
Definition done_frame : string := "event: done" ++ nl ++ nl.

(** [error.response?.data || error.message] *)
Definition error_detail (error : JsError) : JsData :=
  match response error with
  | Some r => if truthy (data r) then data r else JStr (message error)
  | None => JStr (message error)
  end.

(** [JSON.stringify(d)]: it throws on a value that holds a stream object,
    and prints every other value. *)
Definition stringify (d : JsData) : Outcome string :=
  if contains_stream d
  then Throw (TypeError "Converting circular structure to JSON")
  else Return (JSON_stringify env d).

Definition error_frame_text (detail : string) : string :=
  "event: error" ++ nl ++ "data: " ++ detail ++ nl ++ nl.

(** The argument of [res.write] in the [catch] of the handler; evaluating
    it throws when JSON.stringify does. *)
Definition error_frame (error : JsError) : Outcome string :=
  match stringify (error_detail error) with
  | Return detail => Return (error_frame_text detail)
  | Throw e => Throw e
  end.

(** The listeners the handler puts on the backend stream: [on('data', ...)]
    and [on('end', ...)], and none for ['error']. *)
Definition relay_listeners : Listeners :=
  mkListeners
    (Some (fun chunk => res_write (data_frame chunk)))
    (Some (res_write done_frame;; res_end))
    None.

(** The handler of [GET /api/messages/stream] up to its return: [None] when
    it has answered by itself in its [catch], otherwise the backend stream
    and the listeners it has put on it; it throws when its [catch] does. *)
Definition stream_handler (query : Query)
  : M (option (Listeners * BackendStream)) :=
  setHeader "Content-Type" "text/event-stream";;
  setHeader "Cache-Control" "no-cache";;
  setHeader "Connection" "keep-alive";;
  let conversationId := stream_conversationId query in
  try_catch
    (accessToken ← getSalesforceToken;
     sessionId ← try_catch
       (getOrCreateSession conversationId accessToken)
       (fun error =>
          cache_delete conversationId;;
          getOrCreateSession conversationId accessToken);
     now ← DateNow;
     response ← open_stream (ReqStream accessToken sessionId now (stream_text query));
     mret (Some (relay_listeners, response)))
    (fun error =>
       frame ← lift (error_frame error);
       res_write frame;;
       res_end;;
       mret None).

(** A whole streaming request: the handler, then the delivery of the
    backend stream to the listeners. *)
Definition serve_stream (query : Query) : M unit :=
  started ← stream_handler query;
  match started with
  | Some (ls, body) => emit ls body
  | None => mret tt
  end.

End Relay.

(** ** Observations on a history *)

(** What a handler that took the world from [w] to [w'] has done. *)
Definition events_since (w w' : World) : list Event :=
  drop (length (history w)) (history w').

Definition token_results (evs : list Event) : list AxiosResult :=
  omap (fun ev => match ev with
                  | EvPost ReqToken res => Some res
                  | _ => None
                  end) evs.

Definition creation_results (evs : list Event) : list AxiosResult :=
  omap (fun ev => match ev with
                  | EvPost (ReqSession _ _) res => Some res
                  | _ => None
                  end) evs.

Definition dispatch_results (evs : list Event) : list AxiosResult :=
  omap (fun ev => match ev with
                  | EvPost (ReqMessage _ _ _ _) res => Some res
                  | _ => None
                  end) evs.

Definition creation_calls (evs : list Event) : nat := length (creation_results evs).
Definition dispatch_calls (evs : list Event) : nat := length (dispatch_results evs).

Definition cache_deletes (evs : list Event) : list string :=
  omap (fun ev => match ev with
                  | EvCacheDelete conversationId => Some conversationId
                  | _ => None
                  end) evs.

Definition cache_sets (evs : list Event) : list (string * Session) :=
  omap (fun ev => match ev with
                  | EvCacheSet conversationId s => Some (conversationId, s)
                  | _ => None
                  end) evs.

Definition stream_results (evs : list Event) : list StreamResult :=
  omap (fun ev => match ev with
                  | EvOpenStream _ res => Some res
                  | _ => None
                  end) evs.

(** The [Date.now()] readings, in their order. *)
Definition clock_readings (evs : list Event) : list Z :=
  omap (fun ev => match ev with
                  | EvNow t => Some t
                  | _ => None
                  end) evs.

(** The activities the caller of the bot receives, in their order. *)
Definition replies (evs : list Event) : list JsData :=
  omap (fun ev => match ev with
                  | EvSendActivity text => Some text
                  | _ => None
                  end) evs.

(** What the caller of the streaming endpoint observes on the response:
    the frames written and the closing of the response, in their order. *)
Inductive Observed : Type :=
| Frame (text : string)
| Closed.

Definition observed (evs : list Event) : list Observed :=
  omap (fun ev => match ev with
                  | EvWrite frame => Some (Frame frame)
                  | EvEnd => Some Closed
                  | _ => None
                  end) evs.

(** The events that follow the first eviction by a handler. *)
Fixpoint after_evict (evs : list Event) : list Event :=
  match evs with
  | [] => []
  | EvCacheDelete _ :: rest => rest
  | _ :: rest => after_evict rest
  end.

(** ** What the handlers make of an answer

    The outcome of each backend call as a function of what axios settled
    to; the equations below relate them to the handlers. *)

(** What [getSalesforceToken] makes of the answer to its request. *)
Definition token_outcome (res : AxiosResult) : Outcome JsData :=
  match res with
  | Resolved r =>
      match js_get (data r) "access_token" with
      | Return token => Return token
      | Throw _ => Throw (Error "Failed to get Salesforce token.")
      end
  | Rejected _ => Throw (Error "Failed to get Salesforce token.")
  end.

(** What [createEinsteinSession] makes of the answer to its request. *)
Definition creation_outcome (res : AxiosResult) : Outcome JsData :=
  match res with
  | Resolved r =>
      match js_get (data r) "sessionId" with
      | Return handle => Return handle
      | Throw _ => Throw (Error "Failed to create Einstein AI session.")
      end
  | Rejected _ => Throw (Error "Failed to create Einstein AI session.")
  end.

(** What the [catch] of [sendEinsteinMessage] throws for [error]. *)
Definition dispatch_failure (error : JsError) : JsError :=
  match invalid_session error with
  | Throw e => e
  | Return true => Error "SESSION_EXPIRED"
  | Return false => Error "Failed to send message to Einstein AI."
  end.

(** What [sendEinsteinMessage] makes of the answer to its request. *)
Definition dispatch_outcome (res : AxiosResult) : Outcome JsData :=
  match res with
  | Resolved r =>
      match first_message (data r) with
      | Return reply => Return reply
      | Throw e => Throw (dispatch_failure e)
      end
  | Rejected e => Throw (dispatch_failure e)
  end.

(** A response body that signals an absent session: a string in which
    ["session not found"] occurs, or an array that holds that string. *)
Definition body_signals_absent (d : JsData) : bool :=
  match d with
  | JStr s => str_includes "session not found" s
  | JArr items => arr_includes "session not found" items
  | _ => false
  end.

(** The bodies on which [.includes] is never called on a value without the
    method: strings, arrays and the falsy values. *)
Definition plain_body (d : JsData) : Prop :=
  match d with
  | JObj _ | JStream => False
  | JNum n => n = 0
  | JBool b => b = false
  | _ => True
  end.

(** An entry the cleanup removes at time [now]:
    [now - session.timestamp > SESSION_TIMEOUT]. *)
Definition swept (env : Env) (now : Z) (entry : string * Session) : Prop :=
  now - timestamp (snd entry) > SESSION_TIMEOUT env.

#[global] Instance swept_dec env now entry : Decision (swept env now entry).
Proof. unfold swept. apply _. Defined.

(** ** Scripted environments

    A backend that answers from a script: the token request always with
    [token], the n-th creation call of the history with the n-th element of
    [creations], the n-th dispatch with the n-th element of [dispatches]
    (a network error once the script is over), every stream request with
    [stream]; the n-th clock reading is the n-th element of [clock]. *)

Definition network_error : JsError := mkError "AxiosError" "Network Error" None.

Definition quote : string := String (ascii_of_nat 34) EmptyString.

(** A stand-in for JSON.stringify on the values the examples print. *)
Definition print_json (d : JsData) : string :=
  match d with
  | JStr s => quote ++ s ++ quote
  | JNull => "null"
  | JBool true => "true"
  | JBool false => "false"
  | _ => "{}"
  end.

Definition scripted (token : AxiosResult) (creations dispatches : list AxiosResult)
    (stream : StreamResult) (clock : list Z) : Env :=
  mkEnv None None
    (fun h req =>
       match req with
       | ReqToken => token
       | ReqSession _ _ => nth (creation_calls h) creations (Rejected network_error)
       | ReqMessage _ _ _ _ => nth (dispatch_calls h) dispatches (Rejected network_error)
       | ReqStream _ _ _ _ => Rejected network_error
       end)
    (fun h req => stream)
    (fun h => nth (length (clock_readings h)) clock 0)
    print_json.

Definition ok (d : JsData) : AxiosResult := Resolved (mkResponse 200 d).

Definition failed (code : Z) (body : JsData) : AxiosResult :=
  Rejected (mkError "AxiosError" "Request failed" (Some (mkResponse code body))).

Definition token_ok : AxiosResult := ok (JObj [("access_token", JStr "T")]).
Definition session_ok (handle : string) : AxiosResult :=
  ok (JObj [("sessionId", JStr handle)]).
Definition reply_ok (text : string) : AxiosResult :=
  ok (JObj [("messages", JArr [JObj [("message", JStr text)]])]).

Definition no_stream : StreamResult := StreamRejected network_error.

Definition hello : Activity := mkActivity "message" (JStr "hello") "c1".

Definition empty_world : World := mkWorld ∅ [].

(** A world whose cache holds the session ["S0"] of conversation ["c1"],
    stored at time 0. *)
Definition one_session : World :=
  mkWorld (<["c1" := mkSession (JStr "S0") 0]> ∅) [].

(** The token request fails. *)
Definition token_down : Env :=
  scripted (Rejected network_error) [] [] no_stream [].

(** The first dispatch is answered 404, the second gives a reply. *)
Definition expires_once : Env :=
  scripted token_ok [session_ok "S1"; session_ok "S2"]
           [failed 404 (JStr "Not Found"); reply_ok "hi"]
           no_stream [1000; 1001; 1002; 1003].

(** Both dispatches are answered 404. *)
Definition expires_twice : Env :=
  scripted token_ok [session_ok "S1"; session_ok "S2"]
           [failed 404 (JStr "Not Found"); failed 404 (JStr "Not Found")]
           no_stream [1000; 1001; 1002; 1003].

(** The creation call fails. *)
Definition creation_down : Env :=
  scripted token_ok [Rejected network_error] [] no_stream [1000].

(** The clock reads 30 minutes, the default timeout. *)
Definition at_timeout : Env :=
  scripted token_ok [session_ok "S1"] [] no_stream [1800000].

(** The dispatch is answered 500 with a JSON object as its body. *)
Definition json_error_body : JsData :=
  JObj [("error", JStr "Internal Server Error")].
Definition answers_500_json : Env :=
  scripted token_ok [session_ok "S1"] [failed 500 json_error_body]
           no_stream [1000; 1001].

(** The backend stream gives two chunks and ends. *)
Definition streams_two : Env :=
  scripted token_ok [session_ok "S1"; session_ok "S2"] []
           (StreamOpened (mkStream ["a"; "b"] StreamEnd))
           [1000; 1001; 1002; 1003].

(** The backend stream gives one chunk and then fails. *)
Definition breaks_mid_stream : Env :=
  scripted token_ok [session_ok "S1"] []
           (StreamOpened (mkStream ["partial"] (StreamError network_error)))
           [1000; 1001].

Definition anonymous (text : string) : Query := mkQuery None (Some text).

(** The environment with no status text configured. *)
Definition without_status (env : Env) : Env :=
  mkEnv (MIN_SESSION env) None (axios_post env) (axios_stream env)
        (Date_now env) (JSON_stringify env).

(** ** Requests on a history *)

(** The creation requests: the token and the external session key of each. *)
Definition creation_requests (evs : list Event) : list (JsData * string) :=
  omap (fun ev => match ev with
                  | EvPost (ReqSession token key) _ => Some (token, key)
                  | _ => None
                  end) evs.

(** The dispatch requests: token, session handle, sequence id and text. *)
Definition dispatch_requests (evs : list Event)
  : list (JsData * JsData * Z * JsData) :=
  omap (fun ev => match ev with
                  | EvPost (ReqMessage token handle sequenceId text) _ =>
                      Some (token, handle, sequenceId, text)
                  | _ => None
                  end) evs.

(** The stream requests: token, session handle, sequence id and text. *)
Definition stream_requests (evs : list Event)
  : list (JsData * JsData * Z * JsData) :=
  omap (fun ev => match ev with
                  | EvOpenStream (ReqStream token handle sequenceId text) _ =>
                      Some (token, handle, sequenceId, text)
                  | _ => None
                  end) evs.

(** The environment with [MIN_SESSION] set to [minutes]. *)
Definition with_minutes (minutes : Z) (env : Env) : Env :=
  mkEnv (Some minutes) (STATUS_MESSAGE env) (axios_post env) (axios_stream env)
        (Date_now env) (JSON_stringify env).

(** The token request is answered without an [access_token]. *)
Definition token_without_field : Env :=
  scripted (ok (JObj [("token_type", JStr "Bearer")])) [] [] no_stream [].

(** The creation call is answered without a [sessionId]. *)
Definition session_without_field : Env :=
  scripted token_ok [ok (JObj [("status", JStr "created")])] [] no_stream [1000].

(** The dispatch is answered with an empty list of messages. *)
Definition answers_no_message : Env :=
  scripted token_ok [session_ok "S1"] [ok (JObj [("messages", JArr [])])]
           no_stream [1000; 1001].

(** The dispatch is answered 404 with a JSON object as the body. *)
Definition answers_404_json : Env :=
  scripted token_ok [session_ok "S1"] [failed 404 json_error_body]
           no_stream [1000; 1001].

(** The dispatch gives a reply at once. *)
Definition answers_at_once : Env :=
  scripted token_ok [session_ok "S1"] [reply_ok "hi"] no_stream
           [1000; 1001; 1002; 1003].

(** The dispatch is answered 500 with a text body. *)
Definition answers_500_text : Env :=
  scripted token_ok [session_ok "S1"] [failed 500 (JStr "Internal Server Error")]
           no_stream [1000; 1001].

(** The first dispatch is answered 404 and the creation call of the retry
    fails. *)
Definition retry_cannot_create : Env :=
  scripted token_ok [Rejected network_error] [failed 404 (JStr "Not Found")]
           no_stream [1000; 1001; 1002; 1003].

(** The first creation call fails, the second gives a session, and the
    backend stream gives two chunks. *)
Definition creates_at_second_try : Env :=
  scripted token_ok [Rejected network_error; session_ok "S2"] []
           (StreamOpened (mkStream ["a"; "b"] StreamEnd))
           [1000; 1001; 1002; 1003].

(** The backend refuses the stream with 404. *)
Definition stream_refused : Env :=
  scripted token_ok [session_ok "S1"] []
           (StreamRejected (mkError "AxiosError" "Request failed"
                              (Some (mkResponse 404 (JStr "session not found")))))
           [1000; 1001; 1002; 1003].

(** A world whose cache holds two sessions, stored at times 0 and 1000000. *)
Definition two_sessions : World :=
  mkWorld (<["c2" := mkSession (JStr "S9") 1000000]>
             (<["c1" := mkSession (JStr "S0") 0]> ∅)) [].

(** The clock reads one second, then 30 minutes. *)
Definition idle_half_hour : Env :=
  scripted token_ok [session_ok "S1"] [] no_stream [1000; 1800000].

(** The clock reads 30 minutes and one millisecond, twice. *)
Definition past_timeout : Env :=
  scripted token_ok [session_ok "S1"] [] no_stream [1800001; 1800001].

(** ** Running the handlers: one equation per function *)

Open Scope list_scope.

Ltac munfold :=
  unfold mbind, mret, M_bind, M_ret, bind, ret, try_catch, throw, lift in *.

Lemma events_since_app (w w' : World) (evs : list Event) :
  history w' = history w ++ evs -> events_since w w' = evs.
Proof.
  intros H. unfold events_since. rewrite H. apply drop_app_length.
Qed.

Lemma events_since_record (w : World) (ev : Event) :
  events_since w (record ev w) = [ev].
Proof. apply events_since_app. reflexivity. Qed.

Section Runs.

Variable env : Env.

Lemma getSalesforceToken_run (w : World) :
  getSalesforceToken env w =
  (token_outcome (axios_post env (history w) ReqToken),
   record (EvPost ReqToken (axios_post env (history w) ReqToken)) w).
Proof.
  unfold getSalesforceToken, post. munfold.
  destruct (axios_post env (history w) ReqToken) as [r|e]; simpl; [|reflexivity].
  destruct (js_get (data r) "access_token"); reflexivity.
Qed.

Lemma createEinsteinSession_run (accessToken : JsData) (conversationId : string)
    (w : World) :
  let req := ReqSession accessToken ("teams-chat-" ++ conversationId) in
  createEinsteinSession env accessToken conversationId w =
  (creation_outcome (axios_post env (history w) req),
   record (EvPost req (axios_post env (history w) req)) w).
Proof.
  intros req. unfold createEinsteinSession, post. munfold. fold req.
  destruct (axios_post env (history w) req) as [r|e]; simpl; [|reflexivity].
  destruct (js_get (data r) "sessionId"); reflexivity.
Qed.

Lemma sendEinsteinMessage_catch_run {A} (error : JsError) (w : World) :
  @sendEinsteinMessage_catch A error w = (Throw (dispatch_failure error), w).
Proof.
  unfold sendEinsteinMessage_catch, dispatch_failure. munfold.
  destruct (invalid_session error) as [[|]|]; reflexivity.
Qed.

Lemma sendEinsteinMessage_run (accessToken handle userMessage : JsData)
    (w : World) :
  let now := Date_now env (history w) in
  let w1 := record (EvNow now) w in
  let req := ReqMessage accessToken handle now userMessage in
  sendEinsteinMessage env accessToken handle userMessage w =
  (dispatch_outcome (axios_post env (history w1) req),
   record (EvPost req (axios_post env (history w1) req)) w1).
Proof.
  intros now w1 req.
  unfold sendEinsteinMessage, DateNow, post. munfold. fold now w1 req.
  destruct (axios_post env (history w1) req) as [r|e]; simpl.
  - destruct (first_message (data r)); [reflexivity|].
    apply sendEinsteinMessage_catch_run.
  - apply sendEinsteinMessage_catch_run.
Qed.

(** [getOrCreateSession] on a reusable entry, and otherwise. *)
Lemma getOrCreateSession_run (conversationId : string) (accessToken : JsData)
    (w : World) :
  let now := Date_now env (history w) in
  let w1 := record (EvNow now) w in
  let req := ReqSession accessToken ("teams-chat-" ++ conversationId) in
  let res := axios_post env (history w1) req in
  getOrCreateSession env conversationId accessToken w =
  match reusable env now (sessionCache w !! conversationId) with
  | Some s => (Return (sessionId s), w1)
  | None =>
      match creation_outcome res with
      | Return handle =>
          (Return handle,
           mkWorld (<[conversationId := mkSession handle now]> (sessionCache w))
                   (history w ++ [EvNow now; EvPost req res;
                                  EvCacheSet conversationId (mkSession handle now)]))
      | Throw e =>
          (Throw e, mkWorld (sessionCache w) (history w ++ [EvNow now; EvPost req res]))
      end
  end.
Proof.
  intros now w1 req res.
  unfold getOrCreateSession, cache_get, DateNow, cache_set. munfold. fold now w1.
  destruct (reusable env now (sessionCache w !! conversationId)); [reflexivity|].
  rewrite createEinsteinSession_run. fold req res.
  destruct (creation_outcome res); unfold record, w1; simpl;
    rewrite <- ?app_assoc; reflexivity.
Qed.

End Runs.

(** ** Session resolution *)

Section Resolution.

Variable env : Env.

Lemma reusable_Some (now : Z) (entry : option Session) (s : Session) :
  reusable env now entry = Some s <->
  entry = Some s /\ now - timestamp s < SESSION_TIMEOUT env.
Proof.
  unfold reusable. destruct entry as [s'|]; [|intuition discriminate].
  destruct (Z.ltb_spec (now - timestamp s') (SESSION_TIMEOUT env)); split.
  - intros [= ->]. auto.
  - intros [[= ->] _]. reflexivity.
  - discriminate.
  - intros [[= ->] ?]. lia.
Qed.

Lemma reusable_None (now : Z) (entry : option Session) :
  reusable env now entry = None <->
  ~ exists s, entry = Some s /\ now - timestamp s < SESSION_TIMEOUT env.
Proof.
  split.
  - intros H [s Hs]. apply reusable_Some in Hs. congruence.
  - intros H. destruct (reusable env now entry) as [s|] eqn:E; [|reflexivity].
    exfalso. apply H. exists s. apply reusable_Some, E.
Qed.

(** The events of a resolution, in both cases. *)
Lemma getOrCreateSession_events (conversationId : string) (accessToken : JsData)
    (w : World) :
  let now := Date_now env (history w) in
  let req := ReqSession accessToken ("teams-chat-" +:+ conversationId) in
  let res := axios_post env (history w ++ [EvNow now]) req in
  events_since w (snd (getOrCreateSession env conversationId accessToken w)) =
  match reusable env now (sessionCache w !! conversationId) with
  | Some _ => [EvNow now]
  | None =>
      match creation_outcome res with
      | Return handle =>
          [EvNow now; EvPost req res;
           EvCacheSet conversationId (mkSession handle now)]
      | Throw _ => [EvNow now; EvPost req res]
      end
  end.
Proof.
  intros now req res. rewrite getOrCreateSession_run. fold now req. simpl. fold res.
  destruct (reusable env now (sessionCache w !! conversationId)).
  - apply events_since_record.
  - destruct (creation_outcome res); apply events_since_app; reflexivity.
Qed.

(** C3. Session resolution returns the cached handle without a creation
    call exactly when the entry is present and younger than the timeout
    ([now - lastTouch < timeout]); otherwise it makes exactly one creation
    call and, when that call gives a handle, stores the handle with the
    current time and returns it. *)
Theorem C3_resolution_reuses_iff_fresh (conversationId : string)
    (accessToken : JsData) (w : World) :
  let now := Date_now env (history w) in
  let run := getOrCreateSession env conversationId accessToken w in
  let evs := events_since w (snd run) in
  let fresh := exists s, sessionCache w !! conversationId = Some s /\
                         now - timestamp s < SESSION_TIMEOUT env in
  (creation_calls evs = 0%nat <-> fresh) /\
  (forall s, sessionCache w !! conversationId = Some s ->
             now - timestamp s < SESSION_TIMEOUT env ->
             fst run = Return (sessionId s) /\
             creation_calls evs = 0%nat /\
             sessionCache (snd run) = sessionCache w) /\
  (~ fresh ->
   exists res, creation_results evs = [res] /\
     match creation_outcome res with
     | Return handle =>
         fst run = Return handle /\
         sessionCache (snd run) =
           <[conversationId := mkSession handle now]> (sessionCache w)
     | Throw e => fst run = Throw e
     end).
Proof.
  intros now run evs fresh.
  pose proof (getOrCreateSession_events conversationId accessToken w) as Hev.
  pose proof (getOrCreateSession_run env conversationId accessToken w) as Hrun.
  cbv zeta in Hev, Hrun. fold now in Hev, Hrun. fold run in Hev, Hrun. fold evs in Hev.
  simpl in Hrun.
  destruct (reusable env now (sessionCache w !! conversationId)) as [s|] eqn:E.
  - apply reusable_Some in E as [Hs Hlt].
    assert (Hfresh : fresh) by (exists s; auto).
    rewrite Hev, Hrun. simpl. split; [|split].
    + split; [intros _; exact Hfresh | reflexivity].
    + intros s' Hs' _. rewrite Hs in Hs'. injection Hs' as <-. auto.
    + intros Hn. contradiction.
  - pose proof (proj1 (reusable_None _ _) E) as Hstale.
    set (res := axios_post env (history w ++ [EvNow now])
                  (ReqSession accessToken ("teams-chat-" +:+ conversationId))) in *.
    assert (Hres : creation_results evs = [res]).
    { rewrite Hev. destruct (creation_outcome res); reflexivity. }
    split; [|split].
    + unfold creation_calls. rewrite Hres. simpl. split; [discriminate|].
      intros Hf. contradiction.
    + intros s Hs Hlt. exfalso. apply Hstale. exists s. auto.
    + intros _. exists res. split; [exact Hres|].
      rewrite Hrun. destruct (creation_outcome res); simpl; auto.
Qed.

(** C6. When the creation call of a resolution fails, the resolution throws
    the creation error and leaves the session cache as it was: nothing is
    stored for the conversation. *)
Theorem C6_failed_creation_leaves_cache (conversationId : string)
    (accessToken : JsData) (w : World) (e : JsError) :
  let run := getOrCreateSession env conversationId accessToken w in
  let evs := events_since w (snd run) in
  Rejected e ∈ creation_results evs ->
  fst run = Throw (Error "Failed to create Einstein AI session.") /\
  sessionCache (snd run) = sessionCache w /\
  cache_sets evs = [].
Proof.
  intros run evs.
  pose proof (getOrCreateSession_events conversationId accessToken w) as Hev.
  pose proof (getOrCreateSession_run env conversationId accessToken w) as Hrun.
  cbv zeta in Hev, Hrun. fold run in Hev, Hrun. fold evs in Hev.
  simpl in Hrun. rewrite Hev, Hrun. clear Hev Hrun.
  set (now := Date_now env (history w)).
  set (res := axios_post env _ _).
  destruct (reusable env now (sessionCache w !! conversationId)).
  - simpl. intros H. inversion H.
  - destruct (creation_outcome res) eqn:E; simpl; intros H;
      apply list_elem_of_singleton in H; subst res; rewrite <- H in E;
      simpl in E; [discriminate|].
    injection E as <-. auto.
Qed.

End Resolution.

(** ** The periodic cleanup *)

Section Cleanup.

Variable env : Env.

(** The [forEach] over the entries [m], started on any cache [c0] and any
    counter [n0]: the keys of the entries of [m] that are past the timeout
    are gone from [c0], every other key of [c0] is as it was, and the
    counter has grown by the number of those entries. *)
Lemma cleanup_fold (now : Z) (c0 : gmap string Session) (n0 : nat)
    (m : gmap string Session) :
  let r := map_fold (cleanup_step env now) (c0, n0) m in
  (forall k, fst r !! k =
             match m !! k with
             | Some s => if decide (swept env now (k, s)) then None else c0 !! k
             | None => c0 !! k
             end) /\
  snd r = (n0 + size (filter (swept env now) m))%nat.
Proof.
  cbv zeta.
  apply (map_fold_weak_ind
    (fun (r : gmap string Session * nat) (m : gmap string Session) =>
       (forall k, fst r !! k =
                  match m !! k with
                  | Some s => if decide (swept env now (k, s)) then None else c0 !! k
                  | None => c0 !! k
                  end) /\
       snd r = (n0 + size (filter (swept env now) m))%nat)).
  - split.
    + intros k. rewrite lookup_empty. reflexivity.
    + rewrite map_filter_empty, map_size_empty. simpl. lia.
  - intros i x m' r Hi [IHc IHn]. unfold cleanup_step.
    destruct (Z.gtb_spec (now - timestamp x) (SESSION_TIMEOUT env)) as [Hgt|Hle].
    + split; simpl.
      * intros k. destruct (decide (i = k)) as [->|Hne].
        -- rewrite lookup_delete_eq, lookup_insert_eq.
           destruct (decide (swept env now (k, x))) as [|Hn]; [reflexivity|].
           exfalso. apply Hn. unfold swept. simpl. lia.
        -- rewrite lookup_delete_ne, lookup_insert_ne by assumption. apply IHc.
      * rewrite map_filter_insert_True by (unfold swept; simpl; lia).
        rewrite map_size_insert_None.
        -- rewrite IHn. lia.
        -- apply map_lookup_filter_None. left. assumption.
    + split.
      * intros k. destruct (decide (i = k)) as [->|Hne].
        -- rewrite lookup_insert_eq.
           destruct (decide (swept env now (k, x))) as [Hs|_].
           ++ unfold swept in Hs. simpl in Hs. lia.
           ++ rewrite IHc, Hi. reflexivity.
        -- rewrite lookup_insert_ne by assumption. apply IHc.
      * rewrite map_filter_insert_False by (unfold swept; simpl; lia).
        rewrite delete_id by assumption. exact IHn.
Qed.

Lemma cleanup_run (w : World) :
  let now := Date_now env (history w) in
  let r := map_fold (cleanup_step env now) (sessionCache w, 0%nat) (sessionCache w) in
  cleanup env w = (Return (snd r), mkWorld (fst r) (history w ++ [EvNow now])).
Proof. reflexivity. Qed.

(** Every key after the cleanup, from the entry it had before. *)
Lemma cleanup_lookup (w : World) (k : string) :
  let now := Date_now env (history w) in
  sessionCache (snd (cleanup env w)) !! k =
  match sessionCache w !! k with
  | Some s => if decide (swept env now (k, s)) then None else Some s
  | None => None
  end.
Proof.
  intros now. rewrite cleanup_run. simpl. fold now.
  destruct (cleanup_fold now (sessionCache w) 0 (sessionCache w)) as [Hc _].
  rewrite Hc. destruct (sessionCache w !! k) eqn:E; [|reflexivity].
  destruct (decide _); reflexivity.
Qed.

(** C4. The cleanup at time [now] removes exactly the entries with
    [now - lastTouch > timeout], leaves every other entry as it was (same
    handle, same time stamp), and counts the entries it removed. *)
Theorem C4_cleanup_removes_exactly_expired (w : World) :
  let now := Date_now env (history w) in
  let run := cleanup env w in
  let before := sessionCache w in
  let after := sessionCache (snd run) in
  (forall k s, before !! k = Some s ->
               now - timestamp s > SESSION_TIMEOUT env -> after !! k = None) /\
  (forall k s, before !! k = Some s ->
               ~ now - timestamp s > SESSION_TIMEOUT env -> after !! k = Some s) /\
  (forall k, before !! k = None -> after !! k = None) /\
  after = filter (fun entry => ~ swept env now entry) before /\
  fst run = Return (size (filter (swept env now) before)) /\
  size before = (size after + size (filter (swept env now) before))%nat.
Proof.
  intros now run before after.
  pose proof (cleanup_lookup w) as Hafter. cbv zeta in Hafter.
  fold now run after before in Hafter.
  assert (Hfilter : after = filter (fun entry => ~ swept env now entry) before).
  { apply map_eq. intros k. rewrite Hafter.
    destruct (before !! k) as [s|] eqn:E.
    - destruct (decide (swept env now (k, s))) as [Hs|Hs].
      + symmetry. apply map_lookup_filter_None. right.
        intros s' Hs'. rewrite E in Hs'. injection Hs' as <-. auto.
      + symmetry. apply map_lookup_filter_Some. auto.
    - symmetry. apply map_lookup_filter_None. left. assumption. }
  repeat split.
  - intros k s Hk Hgt. rewrite Hafter, Hk.
    destruct (decide _) as [|Hs]; [reflexivity|]. exfalso. apply Hs. exact Hgt.
  - intros k s Hk Hle. rewrite Hafter, Hk.
    destruct (decide _) as [Hs|]; [|reflexivity]. exfalso. apply Hle. exact Hs.
  - intros k Hk. rewrite Hafter, Hk. reflexivity.
  - exact Hfilter.
  - unfold run. rewrite cleanup_run. simpl. fold now before.
    destruct (cleanup_fold now before 0 before) as [_ Hn]. rewrite Hn. reflexivity.
  - rewrite Hfilter, Nat.add_comm.
    rewrite <- (map_filter_union_complement (swept env now) before) at 1.
    apply map_size_disj_union, map_disjoint_filter_complement.
Qed.

(** C9. An entry whose age is the timeout exactly is expired for the
    lookup of a resolution (a creation call is made) and is left in place
    by the cleanup: the two disagree at that instant. *)
Theorem C9_boundary_lookup_expired_cleanup_keeps (conversationId : string)
    (accessToken : JsData) (w : World) (s : Session) :
  sessionCache w !! conversationId = Some s ->
  Date_now env (history w) - timestamp s = SESSION_TIMEOUT env ->
  reusable env (Date_now env (history w)) (sessionCache w !! conversationId) = None /\
  creation_calls
    (events_since w (snd (getOrCreateSession env conversationId accessToken w)))
  = 1%nat /\
  ~ swept env (Date_now env (history w)) (conversationId, s) /\
  sessionCache (snd (cleanup env w)) !! conversationId = Some s.
Proof.
  intros Hs Hage.
  assert (Hstale : reusable env (Date_now env (history w))
                     (sessionCache w !! conversationId) = None).
  { rewrite Hs. unfold reusable. rewrite Hage, Z.ltb_irrefl. reflexivity. }
  assert (Hkeep : ~ swept env (Date_now env (history w)) (conversationId, s)).
  { unfold swept. simpl. lia. }
  split; [exact Hstale|]. split; [|split].
  - rewrite getOrCreateSession_events. rewrite Hstale.
    destruct (creation_outcome _); reflexivity.
  - exact Hkeep.
  - rewrite cleanup_lookup, Hs. destruct (decide _); [contradiction|reflexivity].
Qed.

End Cleanup.

(** ** The dispatcher *)

Lemma js_get_error (v : JsData) (k : string) (e : JsError) :
  js_get v k = Throw e -> response e = None.
Proof. destruct v; simpl; intros [= <-]; reflexivity. Qed.

Lemma js_first_error (v : JsData) (e : JsError) :
  js_first v = Throw e -> response e = None.
Proof.
  destruct v as [| | | |s| | |]; simpl; try (intros [= <-]; reflexivity).
  destruct s; intros [= <-].
Qed.

Lemma first_message_error (d : JsData) (e : JsError) :
  first_message d = Throw e -> response e = None.
Proof.
  unfold first_message.
  destruct (js_get d "messages") as [messages|e1] eqn:E1.
  - destruct (js_first messages) as [m|e2] eqn:E2.
    + apply js_get_error.
    + intros [= <-]. apply (js_first_error _ _ E2).
  - intros [= <-]. apply (js_get_error _ _ _ E1).
Qed.

Lemma invalid_session_error (error e : JsError) :
  invalid_session error = Throw e ->
  e = TypeError "error.response?.data.includes is not a function".
Proof.
  unfold invalid_session, data_includes.
  destruct (response error) as [r|]; [|discriminate].
  destruct (status r =? 404); [discriminate|].
  destruct (truthy (data r)); [|discriminate].
  destruct (data r); try discriminate; intros [= <-]; reflexivity.
Qed.

Lemma dispatch_failure_expired (error : JsError) :
  message (dispatch_failure error) = "SESSION_EXPIRED" <->
  invalid_session error = Return true.
Proof.
  unfold dispatch_failure.
  destruct (invalid_session error) as [[|]|e] eqn:E; simpl.
  - tauto.
  - split; discriminate.
  - apply invalid_session_error in E. subst e. simpl. split; discriminate.
Qed.

Lemma dispatch_failure_expired_eq (error : JsError) :
  message (dispatch_failure error) = "SESSION_EXPIRED" ->
  dispatch_failure error = Error "SESSION_EXPIRED".
Proof.
  intros H. apply dispatch_failure_expired in H. unfold dispatch_failure.
  rewrite H. reflexivity.
Qed.

Lemma dispatch_outcome_expired (res : AxiosResult) (e : JsError) :
  dispatch_outcome res = Throw e ->
  message e = "SESSION_EXPIRED" ->
  e = Error "SESSION_EXPIRED" /\
  exists error, res = Rejected error /\ invalid_session error = Return true.
Proof.
  unfold dispatch_outcome. destruct res as [r|error].
  - destruct (first_message (data r)) as [|e'] eqn:E; [discriminate|].
    intros [= <-] H. apply dispatch_failure_expired in H.
    apply first_message_error in E. unfold invalid_session in H.
    rewrite E in H. discriminate.
  - intros [= <-] H. split; [apply dispatch_failure_expired_eq, H|].
    exists error. split; [reflexivity|]. apply dispatch_failure_expired, H.
Qed.

(** On the plain bodies the dispatcher tells the two failures apart as
    intended: SESSION_EXPIRED for a 404 or a body that signals an absent
    session, the generic failure otherwise. *)
Lemma dispatch_failure_plain (error : JsError) (r : HttpResponse) :
  response error = Some r ->
  plain_body (data r) ->
  dispatch_outcome (Rejected error) =
  Throw (if (status r =? 404) || body_signals_absent (data r)
         then Error "SESSION_EXPIRED"
         else Error "Failed to send message to Einstein AI.").
Proof.
  intros Hr Hplain. simpl. unfold dispatch_failure, invalid_session. rewrite Hr.
  destruct (status r =? 404); [reflexivity|]. simpl.
  destruct (data r) as [| |b|n|s|items|fields|]; simpl in *;
    subst; try reflexivity; try contradiction.
  destruct s as [|c s]; reflexivity.
Qed.

(** A failure without a response is the generic failure. *)
Lemma dispatch_failure_no_response (error : JsError) :
  response error = None ->
  dispatch_outcome (Rejected error) =
  Throw (Error "Failed to send message to Einstein AI.").
Proof.
  intros Hr. simpl. unfold dispatch_failure, invalid_session. rewrite Hr.
  reflexivity.
Qed.

(** A JSON object as the body of a failure other than 404: the call of
    [.includes] throws, and that TypeError is what the dispatcher throws. *)
Lemma dispatch_failure_object_body (error : JsError) (r : HttpResponse)
    (fields : list (string * JsData)) :
  response error = Some r ->
  status r <> 404 ->
  data r = JObj fields ->
  dispatch_outcome (Rejected error) =
  Throw (TypeError "error.response?.data.includes is not a function").
Proof.
  intros Hr Hstatus Hdata. simpl. unfold dispatch_failure, invalid_session.
  rewrite Hr. apply Z.eqb_neq in Hstatus. rewrite Hstatus, Hdata. reflexivity.
Qed.

(** C5, where the code departs from it. The backend answers the dispatch
    with status 500 and a JSON object as the body: the dispatcher throws
    neither SESSION_EXPIRED nor the generic failure, but the TypeError of
    calling [.includes] on the object. *)
Theorem C5_json_error_body_throws_TypeError :
  let run := sendEinsteinMessage answers_500_json (JStr "T") (JStr "S0")
               (JStr "hello") empty_world in
  dispatch_results (events_since empty_world (snd run))
    = [failed 500 json_error_body] /\
  fst run = Throw (TypeError "error.response?.data.includes is not a function") /\
  fst run <> Throw (Error "Failed to send message to Einstein AI.") /\
  fst run <> Throw (Error "SESSION_EXPIRED").
Proof.
  vm_compute. repeat split; discriminate.
Qed.

(** ** The turn handler *)

Section TurnRuns.

Variable env : Env.

Lemma attempt_run (conversationId : string) (accessToken userMessage : JsData)
    (w : World) :
  attempt env conversationId accessToken userMessage w =
  match getOrCreateSession env conversationId accessToken w with
  | (Return handle, w1) =>
      match sendEinsteinMessage env accessToken handle userMessage w1 with
      | (Return reply, w2) => (Return tt, record (EvSendActivity reply) w2)
      | (Throw e, w2) => (Throw e, w2)
      end
  | (Throw e, w1) => (Throw e, w1)
  end.
Proof. reflexivity. Qed.

Lemma botLogic_run (activity : Activity) (w : World) :
  botLogic env activity w =
  if String.eqb (activity_type activity) "message" then
    let w1 := record (EvSendActivity (status_message env)) w in
    match getSalesforceToken env w1 with
    | (Return accessToken, w2) =>
        match attempt env (conversation_id activity) accessToken
                (activity_text activity) w2 with
        | (Return _, w3) => (Return tt, w3)
        | (Throw error, w3) =>
            if String.eqb (message error) "SESSION_EXPIRED" then
              match attempt env (conversation_id activity) accessToken
                      (activity_text activity)
                      (mkWorld (delete (conversation_id activity) (sessionCache w3))
                               (history w3 ++ [EvCacheDelete (conversation_id activity)]))
              with
              | (Return _, w4) => (Return tt, w4)
              | (Throw _, w4) => (Return tt, record (EvSendActivity error_reply) w4)
              end
            else (Return tt, record (EvSendActivity error_reply) w3)
        end
    | (Throw _, w2) => (Return tt, record (EvSendActivity error_reply) w2)
    end
  else (Return tt, w).
Proof.
  unfold botLogic. destruct (String.eqb (activity_type activity) "message"); [|reflexivity].
  unfold sendActivity, cache_delete. munfold. cbv zeta.
  destruct (getSalesforceToken env _) as [[tok|e] w2]; [|reflexivity].
  destruct (attempt env _ tok _ w2) as [[[]|e] w3]; [reflexivity|].
  rewrite andb_true_r.
  destruct (String.eqb (message e) "SESSION_EXPIRED"); [|reflexivity].
  destruct (attempt env _ tok _ _) as [[[]|e'] w4]; reflexivity.
Qed.
End TurnRuns.

Lemma events_since_mk (w : World) (c : gmap string Session) (evs : list Event) :
  events_since w (mkWorld c (history w ++ evs)) = evs.
Proof. apply events_since_app. reflexivity. Qed.

Ltac norm_world :=
  unfold record in *; cbn [sessionCache history fst snd] in *;
  rewrite <- ?app_assoc in *; cbn [app] in *;
  rewrite ?events_since_mk in *.

Ltac abstract_oracles :=
  repeat match goal with
  | |- context [Date_now ?e ?h] =>
      let t := fresh "now" in generalize (Date_now e h); intros t
  end;
  repeat match goal with
  | |- context [axios_post ?e ?h ?r] =>
      let res := fresh "res" in generalize (axios_post e h r); intros res
  end.

Ltac run_step :=
  first
  [ rewrite getSalesforceToken_run; abstract_oracles
  | rewrite attempt_run
  | rewrite getOrCreateSession_run; cbv zeta; abstract_oracles;
    cbn [sessionCache history fst snd record];
    rewrite ?lookup_delete_eq; cbn [reusable]
  | rewrite sendEinsteinMessage_run; cbv zeta; abstract_oracles
  | match goal with
    | |- context [match token_outcome ?r with _ => _ end] =>
        destruct (token_outcome r) eqn:?
    | |- context [match reusable ?e ?n ?c with _ => _ end] =>
        destruct (reusable e n c) eqn:?
    | |- context [match creation_outcome ?r with _ => _ end] =>
        destruct (creation_outcome r) eqn:?
    | |- context [match dispatch_outcome ?r with _ => _ end] =>
        destruct (dispatch_outcome r) eqn:?
    | |- context [if String.eqb (message ?e) ?s then _ else _] =>
        destruct (String.eqb_spec (message e) s)
    end ];
  cbn [sessionCache history fst snd record].

Ltac leaf :=
  norm_world; intros; simpl in *; simplify_eq;
  try match goal with
      | H : ?x ∈ [] |- _ => inversion H
      | H : ?x ∈ [_] |- _ => apply list_elem_of_singleton in H; subst
      end;
  try match goal with
      | H : exists _, _ |- _ => destruct H
      end;
  try congruence.


Section Turn.

Variable env : Env.

(** The second copy of the turn handler differs only in the status message:
    on a message activity it is the turn handler above with no status text
    configured, so what is proved of [botLogic] below holds of it. *)
Lemma botLogic_early_status_message (activity : Activity) (w : World) :
  activity_type activity = "message" ->
  botLogic_early_status env activity w =
  botLogic (without_status env) activity w.
Proof.
  intros Htype. unfold botLogic_early_status, botLogic. rewrite Htype.
  reflexivity.
Qed.

(** On any other activity it sends the status message and nothing else,
    where the turn handler above does nothing. *)
Lemma botLogic_early_status_other (activity : Activity) (w : World) :
  activity_type activity <> "message" ->
  botLogic env activity w = (Return tt, w) /\
  botLogic_early_status env activity w =
  (Return tt, record (EvSendActivity (JStr "⏳ Processing your request...")) w).
Proof.
  intros Htype. apply String.eqb_neq in Htype.
  unfold botLogic_early_status, botLogic. rewrite Htype. split; reflexivity.
Qed.

(** C7. When the token request of a turn fails, the turn makes no creation
    call and no dispatch call, leaves the session cache as it was, and the
    caller receives the generic error reply (after the status message). *)
Theorem C7_token_failure_ends_turn (activity : Activity) (w : World)
    (res : AxiosResult) :
  let run := botLogic env activity w in
  let evs := events_since w (snd run) in
  res ∈ token_results evs ->
  (exists e, token_outcome res = Throw e) ->
  creation_calls evs = 0%nat /\
  dispatch_calls evs = 0%nat /\
  sessionCache (snd run) = sessionCache w /\
  cache_sets evs = [] /\ cache_deletes evs = [] /\
  replies evs = [status_message env; error_reply] /\
  fst run = Return tt.
Proof.
  cbv zeta. rewrite botLogic_run.
  destruct (String.eqb (activity_type activity) "message").
  2:{ unfold events_since. rewrite drop_all. simpl. intros H. inversion H. }
  cbv zeta. repeat run_step.
  all: leaf.
  repeat split; reflexivity.
Qed.

(** C1. When the first dispatch of a turn fails with SESSION_EXPIRED and
    the dispatch of the retry fails with SESSION_EXPIRED too, the turn has
    made exactly these two dispatches, evicted the entry once and created
    one session after the eviction, and it ends with the generic error
    reply: there is no second retry. *)
Theorem C1_second_expiry_is_terminal (activity : Activity) (w : World)
    (res1 res2 : AxiosResult) :
  let run := botLogic env activity w in
  let evs := events_since w (snd run) in
  dispatch_results evs !! 0%nat = Some res1 ->
  dispatch_outcome res1 = Throw (Error "SESSION_EXPIRED") ->
  dispatch_results evs !! 1%nat = Some res2 ->
  dispatch_outcome res2 = Throw (Error "SESSION_EXPIRED") ->
  dispatch_results evs = [res1; res2] /\
  cache_deletes evs = [conversation_id activity] /\
  creation_calls (after_evict evs) = 1%nat /\
  dispatch_results (after_evict evs) = [res2] /\
  cache_deletes (after_evict evs) = [] /\
  replies evs = [status_message env; error_reply] /\
  fst run = Return tt.
Proof.
  cbv zeta. rewrite botLogic_run.
  destruct (String.eqb (activity_type activity) "message").
  2:{ unfold events_since. rewrite drop_all. simpl. discriminate. }
  cbv zeta. repeat run_step.
  all: leaf.
  all: repeat split; reflexivity.
Qed.

(** C2, as the code has it. When the first dispatch of a turn fails with
    SESSION_EXPIRED and the second dispatch gives a reply, the turn has
    evicted the entry of the conversation once, made exactly one creation
    call after the eviction and exactly two dispatches, and the caller
    receives the reply of the second dispatch.  The creation calls of the
    whole turn are one when the first resolution reused the cached entry
    and two when it had to create a session itself. *)
Theorem C2_retry_creates_once_after_eviction (activity : Activity) (w : World)
    (res1 res2 : AxiosResult) (reply : JsData) :
  let run := botLogic env activity w in
  let evs := events_since w (snd run) in
  let reused := exists s now,
    sessionCache w !! conversation_id activity = Some s /\
    head (clock_readings evs) = Some now /\
    now - timestamp s < SESSION_TIMEOUT env in
  dispatch_results evs !! 0%nat = Some res1 ->
  dispatch_outcome res1 = Throw (Error "SESSION_EXPIRED") ->
  dispatch_results evs !! 1%nat = Some res2 ->
  dispatch_outcome res2 = Return reply ->
  cache_deletes evs = [conversation_id activity] /\
  creation_calls (after_evict evs) = 1%nat /\
  dispatch_results evs = [res1; res2] /\
  replies evs = [status_message env; reply] /\
  fst run = Return tt /\
  (reused -> creation_calls evs = 1%nat) /\
  (~ reused -> creation_calls evs = 2%nat).
Proof.
  cbv zeta. rewrite botLogic_run.
  destruct (String.eqb (activity_type activity) "message").
  2:{ unfold events_since. rewrite drop_all. simpl. discriminate. }
  cbv zeta. repeat run_step.
  all: leaf.
  all: repeat split; try reflexivity.
  all: try match goal with
       | H : reusable _ _ _ = Some _ |- _ => apply reusable_Some in H as [? ?]
       | H : reusable _ _ _ = None |- _ =>
           pose proof (proj1 (reusable_None _ _ _) H)
       end.
  all: try congruence.
  - intros Hn. exfalso. apply Hn. eauto.
  - intros (s' & t & Hs & [= <-] & Hlt). exfalso. eauto.
Qed.

End Turn.

(** ** The streaming endpoint *)

Lemma emit_data_run (cs : list string) (w : World) :
  emit_data (fun chunk => res_write (data_frame chunk)) cs w =
  (Return tt,
   mkWorld (sessionCache w)
           (history w ++ map (fun chunk => EvWrite (data_frame chunk)) cs)).
Proof.
  revert w. induction cs as [|c cs IH]; intros w.
  - simpl. rewrite app_nil_r. destruct w; reflexivity.
  - cbn [emit_data]. unfold mbind, M_bind, bind.
    change (res_write (data_frame c) w)
      with (Return tt, record (EvWrite (data_frame c)) w).
    cbv iota beta. rewrite IH. unfold record. cbn [sessionCache history map].
    rewrite <- app_assoc. reflexivity.
Qed.

(** The delivery of a backend stream to the listeners of the handler: a
    break of the stream runs nothing, as there is no ['error'] listener. *)
Lemma emit_relay_run (body : BackendStream) (w : World) :
  emit relay_listeners body w =
  match ending body with
  | StreamEnd =>
      (Return tt,
       mkWorld (sessionCache w)
               (history w ++ map (fun chunk => EvWrite (data_frame chunk)) (chunks body)
                ++ [EvWrite done_frame; EvEnd]))
  | StreamError _ =>
      (Return tt,
       mkWorld (sessionCache w)
               (history w ++ map (fun chunk => EvWrite (data_frame chunk)) (chunks body)))
  end.
Proof.
  unfold emit, relay_listeners. cbn [on_data on_end on_error].
  unfold mbind at 1. unfold M_bind, bind. rewrite emit_data_run.
  destruct (ending body); [|reflexivity].
  unfold res_write, res_end, record. munfold. cbn [sessionCache history].
  rewrite <- !app_assoc. reflexivity.
Qed.

Lemma omap_data_frames {B} (f : Event -> option B) (cs : list string) :
  (forall frame, f (EvWrite frame) = None) ->
  omap f (map (fun chunk => EvWrite (data_frame chunk)) cs) = [].
Proof.
  intros Hf. induction cs as [|c cs IH]; [reflexivity|].
  simpl. rewrite Hf. exact IH.
Qed.

Lemma observed_data_frames (cs : list string) :
  observed (map (fun chunk => EvWrite (data_frame chunk)) cs) =
  map (fun chunk => Frame (data_frame chunk)) cs.
Proof. induction cs as [|c cs IH]; [reflexivity|]. simpl. f_equal. exact IH. Qed.

Lemma stream_results_data_frames (cs : list string) :
  stream_results (map (fun chunk => EvWrite (data_frame chunk)) cs) = [].
Proof. apply omap_data_frames. reflexivity. Qed.

Lemma cache_sets_data_frames (cs : list string) :
  cache_sets (map (fun chunk => EvWrite (data_frame chunk)) cs) = [].
Proof. apply omap_data_frames. reflexivity. Qed.

Lemma cache_deletes_data_frames (cs : list string) :
  cache_deletes (map (fun chunk => EvWrite (data_frame chunk)) cs) = [].
Proof. apply omap_data_frames. reflexivity. Qed.

Lemma token_results_data_frames (cs : list string) :
  token_results (map (fun chunk => EvWrite (data_frame chunk)) cs) = [].
Proof. apply omap_data_frames. reflexivity. Qed.

Lemma creation_results_data_frames (cs : list string) :
  creation_results (map (fun chunk => EvWrite (data_frame chunk)) cs) = [].
Proof. apply omap_data_frames. reflexivity. Qed.

Lemma token_results_app (l1 l2 : list Event) :
  token_results (l1 ++ l2) = token_results l1 ++ token_results l2.
Proof. apply omap_app. Qed.

Lemma creation_results_app (l1 l2 : list Event) :
  creation_results (l1 ++ l2) = creation_results l1 ++ creation_results l2.
Proof. apply omap_app. Qed.

Lemma observed_app (l1 l2 : list Event) :
  observed (l1 ++ l2) = observed l1 ++ observed l2.
Proof. apply omap_app. Qed.

Lemma stream_results_app (l1 l2 : list Event) :
  stream_results (l1 ++ l2) = stream_results l1 ++ stream_results l2.
Proof. apply omap_app. Qed.

Lemma cache_sets_app (l1 l2 : list Event) :
  cache_sets (l1 ++ l2) = cache_sets l1 ++ cache_sets l2.
Proof. apply omap_app. Qed.

Lemma cache_deletes_app (l1 l2 : list Event) :
  cache_deletes (l1 ++ l2) = cache_deletes l1 ++ cache_deletes l2.
Proof. apply omap_app. Qed.

Lemma stream_requests_data_frames (cs : list string) :
  stream_requests (map (fun chunk => EvWrite (data_frame chunk)) cs) = [].
Proof. apply omap_data_frames. reflexivity. Qed.

Lemma clock_readings_data_frames (cs : list string) :
  clock_readings (map (fun chunk => EvWrite (data_frame chunk)) cs) = [].
Proof. apply omap_data_frames. reflexivity. Qed.

Lemma stream_requests_app (l1 l2 : list Event) :
  stream_requests (l1 ++ l2) = stream_requests l1 ++ stream_requests l2.
Proof. apply omap_app. Qed.

Lemma clock_readings_app (l1 l2 : list Event) :
  clock_readings (l1 ++ l2) = clock_readings l1 ++ clock_readings l2.
Proof. apply omap_app. Qed.

(** What the token call and the creation call throw. *)
Lemma token_outcome_error (res : AxiosResult) (e : JsError) :
  token_outcome res = Throw e -> e = Error "Failed to get Salesforce token.".
Proof.
  unfold token_outcome. destruct res as [r|e'].
  - destruct (js_get (data r) "access_token"); [discriminate|]. intros [= <-]. reflexivity.
  - intros [= <-]. reflexivity.
Qed.

Lemma creation_outcome_error (res : AxiosResult) (e : JsError) :
  creation_outcome res = Throw e ->
  e = Error "Failed to create Einstein AI session.".
Proof.
  unfold creation_outcome. destruct res as [r|e'].
  - destruct (js_get (data r) "sessionId"); [discriminate|]. intros [= <-]. reflexivity.
  - intros [= <-]. reflexivity.
Qed.

(** The error frame of an error without a response carries its message. *)
Lemma error_frame_plain (env : Env) (e : JsError) :
  response e = None ->
  error_frame env e
  = Return (error_frame_text (JSON_stringify env (JStr (message e)))).
Proof.
  intros Hr. unfold error_frame, stringify, error_detail. rewrite Hr. reflexivity.
Qed.

(** The error frame of a refused stream request: JSON.stringify throws on
    the response stream. *)
Lemma error_frame_refused (env : Env) (e : JsError) (r : HttpResponse) :
  response e = Some r ->
  error_frame env (stream_failure e)
  = Throw (TypeError "Converting circular structure to JSON").
Proof.
  intros Hr. unfold error_frame, stringify, error_detail, stream_failure.
  simpl. rewrite Hr. reflexivity.
Qed.

(** The error frame of a stream request that got no answer. *)
Lemma error_frame_unanswered (env : Env) (e : JsError) :
  response e = None ->
  error_frame env (stream_failure e)
  = Return (error_frame_text (JSON_stringify env (JStr (message e)))).
Proof.
  intros Hr. unfold error_frame, stringify, error_detail, stream_failure.
  simpl. rewrite Hr. reflexivity.
Qed.

Ltac known_errors :=
  repeat match goal with
  | H : creation_outcome _ = Throw ?e |- _ =>
      is_var e; pose proof (creation_outcome_error _ _ H); subst e
  | H : dispatch_outcome _ = Throw ?e, H' : message ?e = "SESSION_EXPIRED" |- _ =>
      is_var e; destruct (dispatch_outcome_expired _ _ H H') as [? _]; subst e
  end;
  try match goal with
      | H : message (Error _) = _ |- _ => discriminate H
      end.

Ltac known_stream_errors :=
  known_errors;
  repeat match goal with
  | H : token_outcome _ = Throw ?e |- _ =>
      is_var e; pose proof (token_outcome_error _ _ H); subst e
  end.

Ltac same_outcomes :=
  repeat match goal with
  | H : ?o = Return ?a, H' : ?o = Return ?b |- _ =>
      rewrite H in H'; injection H' as <-
  | H : ?o = Throw ?a, H' : ?o = Throw ?b |- _ =>
      rewrite H in H'; injection H' as <-
  | H : ?o = Return _, H' : ?o = Throw _ |- _ =>
      rewrite H in H'; discriminate H'
  end.

Ltac abstract_stream :=
  repeat match goal with
  | |- context [axios_stream ?e ?h ?r] =>
      let res := fresh "opened" in generalize (axios_stream e h r); intros res
  end.

Ltac stream_step :=
  first
  [ run_step
  | match goal with
    | |- context [Date_now _ _] => abstract_oracles
    | |- context [axios_stream _ _ _] => abstract_stream
    | |- context [match ?r with StreamOpened _ => _ | StreamRejected _ => _ end] =>
        destruct r eqn:?
    | |- context [match error_frame ?e ?err with _ => _ end] =>
        destruct (error_frame e err) eqn:?
    end ];
  cbn [sessionCache history fst snd record].

Ltac run_stream :=
  cbv zeta;
  unfold serve_stream, stream_handler, setHeader, res_write, res_end,
    cache_delete, DateNow, open_stream;
  munfold;
  repeat stream_step;
  rewrite ?emit_relay_run;
  try match goal with
      | |- context [match ending ?b with _ => _ end] => destruct (ending b) eqn:?
      end;
  unfold record in *; cbn [sessionCache history fst snd] in *;
  rewrite <- ?app_assoc; rewrite ?events_since_mk;
  unfold creation_calls;
  rewrite ?stream_results_app, ?observed_app, ?cache_sets_app, ?cache_deletes_app,
    ?token_results_app, ?creation_results_app, ?stream_requests_app,
    ?clock_readings_app,
    ?observed_data_frames, ?stream_results_data_frames,
    ?cache_sets_data_frames, ?cache_deletes_data_frames,
    ?token_results_data_frames, ?creation_results_data_frames,
    ?stream_requests_data_frames, ?clock_readings_data_frames;
  cbn [stream_results observed cache_sets cache_deletes token_results
       creation_results stream_requests clock_readings omap list_omap app length];
  known_stream_errors.

Section Streaming.

Variable env : Env.

(** What the caller observes once the backend stream has been opened: the
    chunks as [data:] frames in their order, then [event: done] and the end
    of the response when the stream ends; when the stream breaks, nothing
    after the frames of the chunks: no frame for the error, and the
    response is not ended. *)
Lemma stream_delivery (query : Query) (w : World) (body : BackendStream) :
  let run := serve_stream env query w in
  let evs := events_since w (snd run) in
  StreamOpened body ∈ stream_results evs ->
  fst run = Return tt /\
  observed evs =
  map (fun chunk => Frame (data_frame chunk)) (chunks body)
  ++ match ending body with
     | StreamEnd => [Frame done_frame; Closed]
     | StreamError _ => []
     end.
Proof.
  run_stream.
  all: intros Hin;
    first [ apply list_elem_of_singleton in Hin | inversion Hin ];
    simplify_eq.
  all: match goal with H : ending _ = _ |- _ => rewrite H end.
  all: rewrite ?app_nil_r; split; reflexivity.
Qed.

(** The writes of a streaming request to the session cache are at the key
    of the request, and the request starts with the token request. *)
Lemma serve_stream_frame (query : Query) (w : World) :
  let run := serve_stream env query w in
  let evs := events_since w (snd run) in
  Forall (fun entry => fst entry = stream_conversationId query) (cache_sets evs) /\
  Forall (fun key => key = stream_conversationId query) (cache_deletes evs) /\
  (forall key, key <> stream_conversationId query ->
               sessionCache (snd run) !! key = sessionCache w !! key) /\
  token_results evs <> [].
Proof.
  run_stream.
  all: repeat split; try (repeat constructor; fail); try discriminate.
  all: intros key Hkey;
    rewrite ?lookup_insert_ne, ?lookup_delete_ne, ?lookup_insert_ne by congruence;
    reflexivity.
Qed.

(** A streaming request resolves against the entry at its key: when that
    entry is younger than the timeout at the clock reading of the request,
    the request creates no session, leaves the cache as it was, and asks
    for the stream with the handle of the entry. *)
Lemma serve_stream_reuses (query : Query) (w : World) (s : Session) (now : Z) :
  let run := serve_stream env query w in
  let evs := events_since w (snd run) in
  sessionCache w !! stream_conversationId query = Some s ->
  head (clock_readings evs) = Some now ->
  now - timestamp s < SESSION_TIMEOUT env ->
  creation_calls evs = 0%nat /\
  sessionCache (snd run) = sessionCache w /\
  exists token sequenceId,
    token_outcome <$> token_results evs = [Return token] /\
    stream_requests evs
    = [(token, sessionId s, sequenceId, stream_text query)].
Proof.
  run_stream.
  all: simpl; intros Hs Hnow Hlt; simplify_eq.
  all: try match goal with
       | H : reusable _ _ _ = None |- _ =>
           exfalso; apply reusable_None in H; apply H; eauto
       | H : reusable _ _ _ = Some _ |- _ =>
           apply reusable_Some in H as [? ?]; simplify_eq
       end.
  all: split; [reflexivity|]; split; [reflexivity|].
  all: eexists _, _; split; [simpl; f_equal; eassumption | reflexivity].
Qed.

(** A streaming request writes the entry at its key: when the last creation
    call of the request gives a handle, the entry at the key holds that
    handle and the stream is asked for with it. *)
Lemma serve_stream_stores (query : Query) (w : World) (res : AxiosResult)
    (handle : JsData) :
  let run := serve_stream env query w in
  let evs := events_since w (snd run) in
  last (creation_results evs) = Some res ->
  creation_outcome res = Return handle ->
  exists now token sequenceId,
    sessionCache (snd run) !! stream_conversationId query
    = Some (mkSession handle now) /\
    stream_requests evs = [(token, handle, sequenceId, stream_text query)].
Proof.
  run_stream.
  all: simpl; intros Hlast Hout; simplify_eq; same_outcomes.
  all: eexists _, _, _; split; [apply lookup_insert_eq | reflexivity].
Qed.

(** The session a stream is asked for with is the one at the key of the
    request when the request is over. *)
Lemma serve_stream_handle_is_cached (query : Query) (w : World)
    (request : JsData * JsData * Z * JsData) :
  let run := serve_stream env query w in
  let evs := events_since w (snd run) in
  request ∈ stream_requests evs ->
  exists s, sessionCache (snd run) !! stream_conversationId query = Some s /\
            sessionId s = snd (fst (fst request)).
Proof.
  run_stream.
  all: simpl; intros Hin;
    first [ inversion Hin; fail
          | apply list_elem_of_singleton in Hin; subst request ].
  all: try match goal with
       | H : reusable _ _ _ = Some _ |- _ => apply reusable_Some in H as [? ?]
       end.
  all: first [ eexists (mkSession _ _); split; [apply lookup_insert_eq | reflexivity]
             | eexists; split; [eassumption | reflexivity] ].
Qed.

(** A streaming request whose token call gives a token goes on to resolve
    the session at its key: it reads the clock, and then either reuses the
    entry, or makes a creation call and stores the handle it gives with
    that reading of the clock. *)
Lemma serve_stream_resolves (query : Query) (w : World) :
  let run := serve_stream env query w in
  let evs := events_since w (snd run) in
  exists res, token_results evs = [res] /\
    forall token, token_outcome res = Return token ->
      exists now, head (clock_readings evs) = Some now /\
        match reusable env now (sessionCache w !! stream_conversationId query) with
        | Some s =>
            creation_calls evs = 0%nat /\
            sessionCache (snd run) = sessionCache w /\
            exists sequenceId,
              stream_requests evs
              = [(token, sessionId s, sequenceId, stream_text query)]
        | None =>
            exists res', creation_results evs !! 0%nat = Some res' /\
              forall handle, creation_outcome res' = Return handle ->
                sessionCache (snd run) !! stream_conversationId query
                = Some (mkSession handle now) /\
                exists sequenceId,
                  stream_requests evs
                  = [(token, handle, sequenceId, stream_text query)]
        end.
Proof.
  run_stream.
  all: eexists; split; [reflexivity|]; intros token Htoken; same_outcomes.
  all: eexists; split; [reflexivity|].
  all: match goal with H : reusable _ _ _ = _ |- _ => rewrite H end.
  all: first
    [ split; [reflexivity|]; split; [reflexivity|]; eexists; reflexivity
    | eexists; split; [reflexivity|]; intros handle Hhandle;
      first [ exfalso; same_outcomes; fail
            | same_outcomes;
              split; [apply lookup_insert_eq | eexists; reflexivity] ] ].
Qed.

(** C10. A streaming request without a [conversationId] is served under the
    fixed key ['default-conversation']: it is not turned away but goes on
    to the token request, and it does exactly what the request with that
    id spelled out does.  It resolves against the entry at that key: an
    entry younger than the timeout is reused, with no creation call, and
    the stream is asked for with its handle.  It writes that entry and no
    other: a session it creates is stored at that key, the session a
    stream is asked for with is the one at that key afterwards, and every
    other entry is as it was.  Whenever its token call gives a token it
    does resolve: it reads the clock and either reuses the entry or makes
    a creation call.  So every such request, in whatever state of the
    cache, reads and writes the one entry. *)
Theorem C10_missing_id_uses_default_key (query : Query) (w : World) :
  query_conversationId query = None ->
  let run := serve_stream env query w in
  let evs := events_since w (snd run) in
  stream_conversationId query = "default-conversation" /\
  run = serve_stream env (mkQuery (Some "default-conversation")
                                  (query_message query)) w /\
  Forall (fun entry => fst entry = "default-conversation") (cache_sets evs) /\
  Forall (fun key => key = "default-conversation") (cache_deletes evs) /\
  (forall key, key <> "default-conversation" ->
               sessionCache (snd run) !! key = sessionCache w !! key) /\
  token_results evs <> [] /\
  (exists res, token_results evs = [res] /\
     forall token, token_outcome res = Return token ->
       exists now, head (clock_readings evs) = Some now /\
         match reusable env now (sessionCache w !! "default-conversation") with
         | Some s =>
             creation_calls evs = 0%nat /\
             sessionCache (snd run) = sessionCache w /\
             exists sequenceId,
               stream_requests evs
               = [(token, sessionId s, sequenceId, stream_text query)]
         | None =>
             exists res', creation_results evs !! 0%nat = Some res' /\
               forall handle, creation_outcome res' = Return handle ->
                 sessionCache (snd run) !! "default-conversation"
                 = Some (mkSession handle now) /\
                 exists sequenceId,
                   stream_requests evs
                   = [(token, handle, sequenceId, stream_text query)]
         end) /\
  (forall s now,
     sessionCache w !! "default-conversation" = Some s ->
     head (clock_readings evs) = Some now ->
     now - timestamp s < SESSION_TIMEOUT env ->
     creation_calls evs = 0%nat /\
     sessionCache (snd run) = sessionCache w /\
     exists token sequenceId,
       token_outcome <$> token_results evs = [Return token] /\
       stream_requests evs
       = [(token, sessionId s, sequenceId, stream_text query)]) /\
  (forall res handle,
     last (creation_results evs) = Some res ->
     creation_outcome res = Return handle ->
     exists now token sequenceId,
       sessionCache (snd run) !! "default-conversation"
       = Some (mkSession handle now) /\
       stream_requests evs = [(token, handle, sequenceId, stream_text query)]) /\
  (forall request,
     request ∈ stream_requests evs ->
     exists s, sessionCache (snd run) !! "default-conversation" = Some s /\
               sessionId s = snd (fst (fst request))).
Proof.
  intros Hid.
  assert (Hkey : stream_conversationId query = "default-conversation").
  { unfold stream_conversationId. rewrite Hid. reflexivity. }
  cbv zeta. split; [exact Hkey|]. split.
  { destruct query as [id text]. simpl in Hid. subst id. reflexivity. }
  rewrite <- Hkey.
  destruct (serve_stream_frame query w) as (Hsets & Hdeletes & Hframe & Htoken).
  repeat (split; [assumption|]).
  split; [apply serve_stream_resolves|]. split; [|split].
  - intros s now. apply serve_stream_reuses.
  - intros res handle. apply serve_stream_stores.
  - intros request. apply serve_stream_handle_is_cached.
Qed.

(** Two requests without an id share the session: the session the first
    has asked its stream with is the one the second asks with, without a
    creation call, when the second finds the cache as the first has left
    it and its clock reads less than the timeout after the time stamp of
    the entry. *)
Lemma anonymous_requests_share (query query' : Query) (w w' : World)
    (request : JsData * JsData * Z * JsData) :
  let run := serve_stream env query w in
  let run' := serve_stream env query' w' in
  let evs' := events_since w' (snd run') in
  query_conversationId query = None ->
  query_conversationId query' = None ->
  request ∈ stream_requests (events_since w (snd run)) ->
  sessionCache w' = sessionCache (snd run) ->
  exists s, sessionCache w' !! "default-conversation" = Some s /\
    forall now, head (clock_readings evs') = Some now ->
                now - timestamp s < SESSION_TIMEOUT env ->
                creation_calls evs' = 0%nat /\
                exists token sequenceId,
                  stream_requests evs'
                  = [(token, snd (fst (fst request)), sequenceId,
                      stream_text query')].
Proof.
  cbv zeta. intros Hid Hid' Hin Hcache.
  assert (Hkey : stream_conversationId query = "default-conversation").
  { unfold stream_conversationId. rewrite Hid. reflexivity. }
  assert (Hkey' : stream_conversationId query' = "default-conversation").
  { unfold stream_conversationId. rewrite Hid'. reflexivity. }
  destruct (serve_stream_handle_is_cached query w request Hin) as (s & Hs & Hh).
  rewrite Hkey in Hs. exists s. split; [rewrite Hcache; exact Hs|].
  intros now Hnow Hlt.
  destruct (serve_stream_reuses query' w' s now) as (Hcalls & _ & t & q & _ & Hreq);
    [rewrite Hkey', Hcache; exact Hs | exact Hnow | exact Hlt |].
  split; [exact Hcalls|]. exists t, q. rewrite Hreq, Hh. reflexivity.
Qed.

End Streaming.

(** ** The theorems at scripted environments *)

Ltac by_computation :=
  vm_compute;
  first [ reflexivity
        | constructor; fail
        | eexists; reflexivity ].

(** C8, where the code departs from it. The backend stream gives one chunk
    and then fails: the caller observes the [data:] frame of the chunk and
    nothing more, neither an [event: error] frame nor the end of the
    response; the run is over without an error and leaves the response
    open. *)
Theorem C8_mid_stream_failure_is_not_reported :
  let query := mkQuery (Some "c1") (Some "hello") in
  let run := serve_stream breaks_mid_stream query empty_world in
  let evs := events_since empty_world (snd run) in
  stream_results evs
    = [StreamOpened (mkStream ["partial"] (StreamError network_error))] /\
  observed evs = [Frame (data_frame "partial")] /\
  (exists frame, error_frame breaks_mid_stream network_error = Return frame /\
                 Frame frame ∉ observed evs) /\
  (Closed ∉ observed evs) /\
  fst run = Return tt.
Proof.
  vm_compute. repeat split; try reflexivity.
  - eexists. split; [reflexivity|]. intros H.
    apply list_elem_of_singleton in H. discriminate.
  - intros H. apply list_elem_of_singleton in H. discriminate.
Qed.

(** The first half of C8 on a stream of two chunks. *)
Example two_chunks_then_done :
  let run := serve_stream streams_two (anonymous "hello") empty_world in
  observed (events_since empty_world (snd run))
    = [Frame (data_frame "a"); Frame (data_frame "b"); Frame done_frame; Closed] /\
  fst run = Return tt.
Proof. vm_compute. split; reflexivity. Qed.

(** Two requests without an id, one after the other: the second is served
    with the session the first has created, and creates none. *)
Example anonymous_requests_share_a_session :
  let w1 := snd (serve_stream streams_two (anonymous "first") empty_world) in
  let w2 := snd (serve_stream streams_two (anonymous "second") w1) in
  sessionCache w1 !! "default-conversation" = Some (mkSession (JStr "S1") 1000) /\
  creation_calls (events_since w1 w2) = 0%nat /\
  omap (fun ev => match ev with
                  | EvOpenStream (ReqStream _ handle _ text) _ => Some (handle, text)
                  | _ => None
                  end) (history w2)
    = [(JStr "S1", JStr "first"); (JStr "S1", JStr "second")].
Proof. vm_compute. repeat split; reflexivity. Qed.

(** A turn that starts on an empty cache and is answered 404 once, event by
    event: two creation calls. *)
Example retry_on_an_empty_cache :
  events_since empty_world (snd (botLogic expires_once hello empty_world)) =
  [ EvSendActivity (JStr "⏳ Processing your request...");
    EvPost ReqToken token_ok;
    EvNow 1000;
    EvPost (ReqSession (JStr "T") "teams-chat-c1") (session_ok "S1");
    EvCacheSet "c1" (mkSession (JStr "S1") 1000);
    EvNow 1001;
    EvPost (ReqMessage (JStr "T") (JStr "S1") 1001 (JStr "hello"))
           (failed 404 (JStr "Not Found"));
    EvCacheDelete "c1";
    EvNow 1002;
    EvPost (ReqSession (JStr "T") "teams-chat-c1") (session_ok "S2");
    EvCacheSet "c1" (mkSession (JStr "S2") 1002);
    EvNow 1003;
    EvPost (ReqMessage (JStr "T") (JStr "S2") 1003 (JStr "hello")) (reply_ok "hi");
    EvSendActivity (JStr "hi") ].
Proof. vm_compute. reflexivity. Qed.

Lemma C1_witness :
  let run := botLogic expires_twice hello one_session in
  let evs := events_since one_session (snd run) in
  dispatch_results evs
    = [failed 404 (JStr "Not Found"); failed 404 (JStr "Not Found")] /\
  cache_deletes evs = ["c1"] /\
  creation_calls (after_evict evs) = 1%nat /\
  dispatch_results (after_evict evs) = [failed 404 (JStr "Not Found")] /\
  cache_deletes (after_evict evs) = [] /\
  replies evs = [status_message expires_twice; error_reply] /\
  fst run = Return tt.
Proof.
  apply (C1_second_expiry_is_terminal expires_twice hello one_session
           (failed 404 (JStr "Not Found")) (failed 404 (JStr "Not Found")));
    by_computation.
Defined.

Lemma C2_witness :
  let run := botLogic expires_once hello one_session in
  let evs := events_since one_session (snd run) in
  cache_deletes evs = ["c1"] /\
  creation_calls (after_evict evs) = 1%nat /\
  dispatch_results evs = [failed 404 (JStr "Not Found"); reply_ok "hi"] /\
  replies evs = [status_message expires_once; JStr "hi"] /\
  fst run = Return tt /\
  creation_calls evs = 1%nat.
Proof.
  destruct (C2_retry_creates_once_after_eviction expires_once hello one_session
              (failed 404 (JStr "Not Found")) (reply_ok "hi") (JStr "hi"))
    as (H1 & H2 & H3 & H4 & H5 & H6 & _);
    [by_computation | by_computation | by_computation | by_computation |].
  refine (conj H1 (conj H2 (conj H3 (conj H4 (conj H5 (H6 _)))))).
  exists (mkSession (JStr "S0") 0), 1000.
  split; [|split]; by_computation.
Defined.

(** C2 as it is stated fails on a turn whose first resolution had to create
    the session: the turn makes two creation calls. *)
Lemma C2_counterexample :
  ~ (forall (env : Env) (activity : Activity) (w : World)
            (res1 res2 : AxiosResult) (reply : JsData),
       let run := botLogic env activity w in
       let evs := events_since w (snd run) in
       dispatch_results evs !! 0%nat = Some res1 ->
       dispatch_outcome res1 = Throw (Error "SESSION_EXPIRED") ->
       dispatch_results evs !! 1%nat = Some res2 ->
       dispatch_outcome res2 = Return reply ->
       cache_deletes evs = [conversation_id activity] /\
       creation_calls evs = 1%nat /\
       dispatch_calls evs = 2%nat /\
       replies evs = [status_message env; reply]).
Proof.
  intros claim.
  destruct (claim expires_once hello empty_world
              (failed 404 (JStr "Not Found")) (reply_ok "hi") (JStr "hi"))
    as (_ & Hcalls & _);
    [by_computation | by_computation | by_computation | by_computation |].
  vm_compute in Hcalls. discriminate.
Qed.

Lemma C6_witness :
  let run := getOrCreateSession creation_down "c1" (JStr "T") empty_world in
  let evs := events_since empty_world (snd run) in
  Rejected network_error ∈ creation_results evs /\
  fst run = Throw (Error "Failed to create Einstein AI session.") /\
  sessionCache (snd run) = sessionCache empty_world /\
  cache_sets evs = [].
Proof.
  assert (H : Rejected network_error ∈
              creation_results
                (events_since empty_world
                   (snd (getOrCreateSession creation_down "c1" (JStr "T")
                           empty_world)))) by by_computation.
  split; [exact H|].
  exact (C6_failed_creation_leaves_cache creation_down "c1" (JStr "T")
           empty_world network_error H).
Defined.

Lemma C7_witness :
  let run := botLogic token_down hello one_session in
  let evs := events_since one_session (snd run) in
  creation_calls evs = 0%nat /\
  dispatch_calls evs = 0%nat /\
  sessionCache (snd run) = sessionCache one_session /\
  cache_sets evs = [] /\ cache_deletes evs = [] /\
  replies evs = [status_message token_down; error_reply] /\
  fst run = Return tt.
Proof.
  apply (C7_token_failure_ends_turn token_down hello one_session
           (Rejected network_error)); by_computation.
Defined.

Lemma C9_witness :
  creation_calls
    (events_since one_session
       (snd (getOrCreateSession at_timeout "c1" (JStr "T") one_session)))
  = 1%nat /\
  sessionCache (snd (cleanup at_timeout one_session)) !! "c1"
  = Some (mkSession (JStr "S0") 0).
Proof.
  destruct (C9_boundary_lookup_expired_cleanup_keeps at_timeout "c1" (JStr "T")
              one_session (mkSession (JStr "S0") 0))
    as (_ & Hcreate & _ & Hkept); [by_computation | by_computation |].
  split; assumption.
Defined.

Lemma C10_witness :
  let run := serve_stream streams_two (anonymous "hello") one_session in
  stream_conversationId (anonymous "hello") = "default-conversation" /\
  sessionCache (snd run) !! "c1" = sessionCache one_session !! "c1" /\
  exists now, sessionCache (snd run) !! "default-conversation"
              = Some (mkSession (JStr "S1") now).
Proof.
  destruct (C10_missing_id_uses_default_key streams_two (anonymous "hello")
              one_session)
    as (Hkey & _ & _ & _ & Hframe & _ & _ & _ & Hstore & _); [reflexivity|].
  split; [exact Hkey|]. split; [apply Hframe; discriminate|].
  destruct (Hstore (session_ok "S1") (JStr "S1")) as (now & _ & _ & Hentry & _);
    [by_computation | by_computation |].
  exists now. exact Hentry.
Defined.

(** ** Further properties of the backend calls *)

Section Calls.

Variable env : Env.

(** X1. The token call makes exactly one request and leaves the session
    cache alone; whatever goes wrong, what it throws is the one error
    "Failed to get Salesforce token.", without the response of the backend. *)
Theorem X1_token_failure_is_uniform (w : World) :
  let run := getSalesforceToken env w in
  let evs := events_since w (snd run) in
  sessionCache (snd run) = sessionCache w /\
  (exists res, evs = [EvPost ReqToken res]) /\
  (forall e, fst run = Throw e ->
             e = Error "Failed to get Salesforce token." /\ response e = None).
Proof.
  cbv zeta. rewrite getSalesforceToken_run. simpl.
  rewrite events_since_record. split; [reflexivity|]. split; [eauto|].
  intros e. unfold token_outcome.
  destruct (axios_post env (history w) ReqToken) as [r|e'].
  - destruct (js_get (data r) "access_token"); [discriminate|].
    intros [= <-]. split; reflexivity.
  - intros [= <-]. split; reflexivity.
Qed.

(** X2. A token response whose body is an object without [access_token] is
    not a failure: the call returns [undefined] as the token. *)
Theorem X2_token_without_field_is_undefined (w : World) (r : HttpResponse)
    (fields : list (string * JsData)) :
  let run := getSalesforceToken env w in
  token_results (events_since w (snd run)) = [Resolved r] ->
  data r = JObj fields ->
  assoc "access_token" fields = JUndefined ->
  fst run = Return JUndefined.
Proof.
  cbv zeta. rewrite getSalesforceToken_run. simpl.
  rewrite events_since_record. simpl. intros [= ->] Hdata Hfield.
  unfold token_outcome. rewrite Hdata. simpl. rewrite Hfield. reflexivity.
Qed.

(** What [sendEinsteinMessage] gives for an answered request. *)
Lemma sendEinsteinMessage_answered (accessToken handle text : JsData)
    (w : World) (r : HttpResponse) :
  let run := sendEinsteinMessage env accessToken handle text w in
  dispatch_results (events_since w (snd run)) = [Resolved r] ->
  match first_message (data r) with
  | Return reply => fst run = Return reply
  | Throw _ => fst run = Throw (Error "Failed to send message to Einstein AI.")
  end.
Proof.
  cbv zeta. rewrite sendEinsteinMessage_run. cbv zeta. simpl.
  unfold record. simpl. rewrite <- app_assoc. rewrite events_since_mk. simpl.
  intros [= ->]. simpl.
  destruct (first_message (data r)) as [reply|e] eqn:E; [reflexivity|].
  apply first_message_error in E.
  unfold dispatch_failure, invalid_session. rewrite E. reflexivity.
Qed.

(** X5. A dispatch that the backend has answered (a resolved request) never
    counts as an expired session: it gives the first message of the answer,
    or the generic failure when the answer has none. *)
Theorem X5_answered_dispatch_never_expires (accessToken handle text : JsData)
    (w : World) (r : HttpResponse) :
  let run := sendEinsteinMessage env accessToken handle text w in
  dispatch_results (events_since w (snd run)) = [Resolved r] ->
  fst run <> Throw (Error "SESSION_EXPIRED") /\
  ((exists reply, first_message (data r) = Return reply /\ fst run = Return reply) \/
   ((exists e, first_message (data r) = Throw e) /\
    fst run = Throw (Error "Failed to send message to Einstein AI."))).
Proof.
  cbv zeta. intros Hres.
  pose proof (sendEinsteinMessage_answered accessToken handle text w r Hres) as H.
  destruct (first_message (data r)) as [reply|e]; rewrite H.
  - split; [discriminate|]. left. eauto.
  - split; [discriminate|]. right. eauto.
Qed.

(** X6. An answer without messages (no [messages], or an empty list) is the
    generic failure, not an empty reply; an answer whose first message has
    no [message] is a reply of [undefined]. *)
Theorem X6_malformed_answers (accessToken handle text : JsData)
    (w : World) (r : HttpResponse) (fields : list (string * JsData)) :
  let run := sendEinsteinMessage env accessToken handle text w in
  dispatch_results (events_since w (snd run)) = [Resolved r] ->
  data r = JObj fields ->
  (assoc "messages" fields = JUndefined \/ assoc "messages" fields = JArr [] ->
   fst run = Throw (Error "Failed to send message to Einstein AI.")) /\
  (forall m rest, assoc "messages" fields = JArr (JObj m :: rest) ->
                  fst run = Return (assoc "message" m)).
Proof.
  cbv zeta. intros Hres Hdata.
  pose proof (sendEinsteinMessage_answered accessToken handle text w r Hres)
    as H.
  unfold first_message in H. rewrite Hdata in H. simpl in H.
  split.
  - intros [Hm|Hm]; rewrite Hm in H; exact H.
  - intros m rest Hm. rewrite Hm in H. exact H.
Qed.

(** X7. A 404 is an expired session whatever the body of the response is,
    a JSON object included. *)
Theorem X7_not_found_is_expired_for_any_body (accessToken handle text : JsData)
    (w : World) (e : JsError) (r : HttpResponse) :
  let run := sendEinsteinMessage env accessToken handle text w in
  dispatch_results (events_since w (snd run)) = [Rejected e] ->
  response e = Some r ->
  status r = 404 ->
  fst run = Throw (Error "SESSION_EXPIRED").
Proof.
  cbv zeta. rewrite sendEinsteinMessage_run. cbv zeta. simpl.
  unfold record. simpl. rewrite <- app_assoc. rewrite events_since_mk. simpl.
  intros [= ->] Hr Hs. simpl.
  unfold dispatch_failure, invalid_session. rewrite Hr, Hs. reflexivity.
Qed.

End Calls.

(** ** Further properties of the session resolution *)

Lemma session_key_injective (a b : string) :
  "teams-chat-" +:+ a = "teams-chat-" +:+ b -> a = b.
Proof. simpl. intros [= H]. exact H. Qed.

Section MoreResolution.

Variable env : Env.

(** The requests of a resolution. *)
Lemma getOrCreateSession_requests (conversationId : string) (accessToken : JsData)
    (w : World) :
  let evs := events_since w (snd (getOrCreateSession env conversationId accessToken w)) in
  creation_requests evs =
  match reusable env (Date_now env (history w)) (sessionCache w !! conversationId) with
  | Some _ => []
  | None => [(accessToken, "teams-chat-" +:+ conversationId)]
  end /\
  clock_readings evs = [Date_now env (history w)] /\
  dispatch_requests evs = [] /\ cache_deletes evs = [].
Proof.
  cbv zeta. rewrite getOrCreateSession_events.
  destruct (reusable env _ _); [repeat split|].
  destruct (creation_outcome _); repeat split.
Qed.

(** X3. A creation response whose body is an object without [sessionId] is
    not a failure: the resolution returns [undefined] as the handle and
    stores it in the cache. *)
Theorem X3_session_without_field_is_cached (conversationId : string)
    (accessToken : JsData) (w : World) (r : HttpResponse)
    (fields : list (string * JsData)) :
  let run := getOrCreateSession env conversationId accessToken w in
  creation_results (events_since w (snd run)) = [Resolved r] ->
  data r = JObj fields ->
  assoc "sessionId" fields = JUndefined ->
  fst run = Return JUndefined /\
  sessionCache (snd run) !! conversationId
  = Some (mkSession JUndefined (Date_now env (history w))).
Proof.
  cbv zeta. rewrite getOrCreateSession_events, getOrCreateSession_run. cbv zeta.
  simpl. set (res := axios_post env _ _).
  destruct (reusable env _ _); [discriminate|].
  intros Hres Hdata Hfield.
  assert (Hout : creation_outcome res = Return JUndefined).
  { destruct (creation_outcome res) eqn:E; simpl in Hres; injection Hres as Hres;
      rewrite Hres in E; simpl in E; rewrite Hdata in E; simpl in E;
      rewrite Hfield in E; congruence. }
  rewrite Hout. simpl. split; [reflexivity|]. apply lookup_insert_eq.
Qed.

(** X4. The creation request of a resolution carries the token it was given
    and the key ["teams-chat-" + conversationId], and two conversations
    never ask under the same key. *)
Theorem X4_creation_requests_are_per_conversation
    (id1 id2 : string) (token1 token2 : JsData) (w1 w2 : World) :
  let evs1 := events_since w1 (snd (getOrCreateSession env id1 token1 w1)) in
  let evs2 := events_since w2 (snd (getOrCreateSession env id2 token2 w2)) in
  (forall request, request ∈ creation_requests evs1 ->
                   request = (token1, "teams-chat-" +:+ id1)) /\
  (forall t1 t2 key, (t1, key) ∈ creation_requests evs1 ->
                     (t2, key) ∈ creation_requests evs2 -> id1 = id2).
Proof.
  cbv zeta.
  assert (Hin : forall (id : string) (token : JsData) (w : World)
                        (request : JsData * string),
            request ∈ match reusable env (Date_now env (history w))
                              (sessionCache w !! id) with
                      | Some _ => []
                      | None => [(token, "teams-chat-" +:+ id)]
                      end -> request = (token, "teams-chat-" +:+ id)).
  { intros id token w request. destruct (reusable env _ _); simpl; intros H.
    - inversion H.
    - apply list_elem_of_singleton in H. exact H. }
  destruct (getOrCreateSession_requests id1 token1 w1) as (H1 & _).
  destruct (getOrCreateSession_requests id2 token2 w2) as (H2 & _).
  cbv zeta in H1, H2. rewrite H1, H2.
  split; [apply Hin|].
  intros t1 t2 key Hk1 Hk2. apply Hin in Hk1. apply Hin in Hk2.
  injection Hk1 as _ Hk1. injection Hk2 as _ Hk2. subst key.
  apply session_key_injective. exact Hk2.
Qed.

(** X8. A resolution for one conversation leaves the entries of every other
    conversation as they were. *)
Theorem X8_resolution_is_local (conversationId other : string)
    (accessToken : JsData) (w : World) :
  other <> conversationId ->
  sessionCache (snd (getOrCreateSession env conversationId accessToken w)) !! other
  = sessionCache w !! other.
Proof.
  intros Hne. rewrite getOrCreateSession_run. cbv zeta.
  destruct (reusable env _ _); [reflexivity|].
  destruct (creation_outcome _); simpl; [|reflexivity].
  apply lookup_insert_ne. congruence.
Qed.

(** A resolution on a reusable entry, whatever the history. *)
Lemma getOrCreateSession_hit (conversationId : string) (accessToken : JsData)
    (w : World) (s : Session) :
  sessionCache w !! conversationId = Some s ->
  Date_now env (history w) - timestamp s < SESSION_TIMEOUT env ->
  getOrCreateSession env conversationId accessToken w =
  (Return (sessionId s), record (EvNow (Date_now env (history w))) w).
Proof.
  intros Hs Hlt. rewrite getOrCreateSession_run. cbv zeta.
  rewrite (proj2 (reusable_Some env _ _ s) (conj Hs Hlt)). reflexivity.
Qed.

(** A resolution on an entry at or past the timeout makes a creation call. *)
Lemma getOrCreateSession_stale (conversationId : string) (accessToken : JsData)
    (w : World) (s : Session) :
  sessionCache w !! conversationId = Some s ->
  Date_now env (history w) - timestamp s >= SESSION_TIMEOUT env ->
  creation_calls
    (events_since w (snd (getOrCreateSession env conversationId accessToken w)))
  = 1%nat.
Proof.
  intros Hs Hge. rewrite getOrCreateSession_events.
  assert (Hnone : reusable env (Date_now env (history w))
                    (sessionCache w !! conversationId) = None).
  { apply reusable_None. intros (s' & Hs' & Hlt). rewrite Hs in Hs'.
    injection Hs' as <-. lia. }
  rewrite Hnone. destruct (creation_outcome _); reflexivity.
Qed.

(** X9. A session that a resolution has created is what a later resolution
    for the conversation returns, without a creation call, as long as the
    clock then reads less than the timeout after the creation. *)
Theorem X9_created_session_is_reused (conversationId : string)
    (token token' : JsData) (w w' : World) (handle : JsData) :
  let run := getOrCreateSession env conversationId token w in
  let run' := getOrCreateSession env conversationId token' w' in
  creation_calls (events_since w (snd run)) = 1%nat ->
  fst run = Return handle ->
  sessionCache w' = sessionCache (snd run) ->
  Date_now env (history w') - Date_now env (history w) < SESSION_TIMEOUT env ->
  fst run' = Return handle /\
  creation_calls (events_since w' (snd run')) = 0%nat /\
  sessionCache (snd run') = sessionCache w'.
Proof.
  cbv zeta. intros Hcalls Hret Hcache Hlt.
  assert (Hentry : sessionCache w' !! conversationId
                   = Some (mkSession handle (Date_now env (history w)))).
  { rewrite Hcache. revert Hcalls Hret.
    rewrite getOrCreateSession_events, getOrCreateSession_run. cbv zeta.
    destruct (reusable env _ _); [discriminate|].
    destruct (creation_outcome _); simpl; [|discriminate].
    intros _ [= ->]. apply lookup_insert_eq. }
  rewrite (getOrCreateSession_hit _ _ _ _ Hentry Hlt). simpl.
  rewrite events_since_record. repeat split.
Qed.

(** X10. Reusing a session does not renew it: the entry keeps the time
    stamp of its creation, so a resolution at or past the timeout after
    the creation makes a creation call, however recently the session was
    used. *)
Theorem X10_reuse_does_not_renew (conversationId : string)
    (token token' : JsData) (w w' : World) (s : Session) :
  let run := getOrCreateSession env conversationId token w in
  let run' := getOrCreateSession env conversationId token' w' in
  sessionCache w !! conversationId = Some s ->
  Date_now env (history w) - timestamp s < SESSION_TIMEOUT env ->
  sessionCache w' = sessionCache (snd run) ->
  Date_now env (history w') - timestamp s >= SESSION_TIMEOUT env ->
  fst run = Return (sessionId s) /\
  sessionCache (snd run) !! conversationId = Some s /\
  creation_calls (events_since w' (snd run')) = 1%nat.
Proof.
  cbv zeta. intros Hs Hlt Hcache Hge.
  rewrite (getOrCreateSession_hit _ token _ _ Hs Hlt) in *. simpl in *.
  repeat split; [exact Hs|].
  apply (getOrCreateSession_stale _ _ _ s); [|exact Hge].
  rewrite Hcache. exact Hs.
Qed.

(** X11. With a timeout of zero or less ([MIN_SESSION] set to 0 or to a
    negative number) no session is ever reused: every resolution makes a
    creation call, as long as the clock does not read less than the time
    stamp of the entry. *)
Theorem X11_no_reuse_without_timeout (conversationId : string)
    (accessToken : JsData) (w : World) :
  SESSION_TIMEOUT env <= 0 ->
  (forall s, sessionCache w !! conversationId = Some s ->
             timestamp s <= Date_now env (history w)) ->
  creation_calls
    (events_since w (snd (getOrCreateSession env conversationId accessToken w)))
  = 1%nat.
Proof.
  intros Htimeout Hclock. rewrite getOrCreateSession_events.
  assert (Hnone : reusable env (Date_now env (history w))
                    (sessionCache w !! conversationId) = None).
  { apply reusable_None. intros (s & Hs & Hlt). specialize (Hclock s Hs). lia. }
  rewrite Hnone. destruct (creation_outcome _); reflexivity.
Qed.

End MoreResolution.

(** ** Further properties of the turn handler *)

Lemma events_since_same (w : World) : events_since w w = [].
Proof. unfold events_since. apply drop_all. Qed.

Ltac run_turn :=
  cbv zeta; rewrite botLogic_run;
  match goal with
  | |- context [String.eqb ?t "message"] => destruct (String.eqb_spec t "message")
  end;
  [ cbv zeta; repeat run_step; norm_world; known_errors
  | try rewrite events_since_same ].

Section MoreTurn.

Variable env : Env.

(** X12. The turn handler never throws: every failure of the token,
    session and dispatch calls ends in the generic error reply.  A message
    turn sends exactly two activities, the status message and then either a
    reply of the backend or the error reply; any other activity is ignored. *)
Theorem X12_turn_always_answers (activity : Activity) (w : World) :
  let run := botLogic env activity w in
  let evs := events_since w (snd run) in
  fst run = Return tt /\
  (activity_type activity <> "message" -> evs = []) /\
  (activity_type activity = "message" ->
   exists r, replies evs = [status_message env; r] /\
             (r = error_reply \/
              exists res, res ∈ dispatch_results evs /\
                          dispatch_outcome res = Return r)).
Proof.
  run_turn.
  all: split; [reflexivity|];
    split; [intros ?; first [reflexivity | congruence]|]; intros ?;
    try contradiction.
  all: eexists; split; [reflexivity|].
  all: first [ left; reflexivity
             | right;
               match goal with
               | H : dispatch_outcome ?r = Return _ |- _ =>
                   exists r; split; [simpl; set_solver | exact H]
               end ].
Qed.

(** X13. A message turn makes one token request, at most two creation
    calls, at most two dispatches and at most one eviction; it evicts
    exactly when its first dispatch fails with SESSION_EXPIRED. *)
Theorem X13_turn_effort_is_bounded (activity : Activity) (w : World) :
  let run := botLogic env activity w in
  let evs := events_since w (snd run) in
  (length (token_results evs) <= 1)%nat /\
  (creation_calls evs <= 2)%nat /\
  (dispatch_calls evs <= 2)%nat /\
  (cache_deletes evs = [] \/ cache_deletes evs = [conversation_id activity]) /\
  (cache_deletes evs = [conversation_id activity] <->
   exists res, dispatch_results evs !! 0%nat = Some res /\
               dispatch_outcome res = Throw (Error "SESSION_EXPIRED")).
Proof.
  run_turn.
  all: unfold creation_calls, dispatch_calls; simpl.
  all: repeat (split; [lia || (left; reflexivity) || (right; reflexivity)|]).
  all: split;
    [ first [ discriminate
            | intros _; eexists; split; [reflexivity|assumption] ]
    | first [ intros _; reflexivity
            | intros (res' & Hres & Hout); simplify_eq; try congruence ] ].
  all: match goal with
       | H : dispatch_outcome ?r = Throw ?e, H' : dispatch_outcome ?r = Throw _,
         Hn : message ?e <> _ |- _ =>
           rewrite H in H'; injection H' as ->; simpl in Hn; congruence
       end.
Qed.

(** X14. A turn of one conversation leaves the entries of every other
    conversation as they were. *)
Theorem X14_turn_is_local (activity : Activity) (w : World) (other : string) :
  other <> conversation_id activity ->
  sessionCache (snd (botLogic env activity w)) !! other = sessionCache w !! other.
Proof.
  intros Hne. revert Hne. run_turn.
  all: intros Hne;
    rewrite ?lookup_insert_ne, ?lookup_delete_ne, ?lookup_insert_ne by congruence;
    reflexivity.
Qed.

(** X15. When the first dispatch of a turn gives a reply, the turn is over
    with that reply: one dispatch, no eviction, at most one creation call. *)
Theorem X15_first_reply_ends_turn (activity : Activity) (w : World)
    (res : AxiosResult) (reply : JsData) :
  let run := botLogic env activity w in
  let evs := events_since w (snd run) in
  dispatch_results evs !! 0%nat = Some res ->
  dispatch_outcome res = Return reply ->
  dispatch_results evs = [res] /\
  cache_deletes evs = [] /\
  (creation_calls evs <= 1)%nat /\
  replies evs = [status_message env; reply].
Proof.
  run_turn.
  all: intros; simpl in *; simplify_eq; try congruence.
  all: unfold creation_calls; simpl; repeat split; try lia; congruence.
Qed.

(** X16. A first dispatch that fails with anything but SESSION_EXPIRED is
    final: no eviction, no second dispatch, the error reply; the session
    that was used stays in the cache. *)
Theorem X16_other_failure_is_terminal (activity : Activity) (w : World)
    (res : AxiosResult) (e : JsError) :
  let run := botLogic env activity w in
  let evs := events_since w (snd run) in
  dispatch_results evs !! 0%nat = Some res ->
  dispatch_outcome res = Throw e ->
  e <> Error "SESSION_EXPIRED" ->
  dispatch_results evs = [res] /\
  cache_deletes evs = [] /\
  replies evs = [status_message env; error_reply] /\
  exists s token sequenceId text,
    sessionCache (snd run) !! conversation_id activity = Some s /\
    dispatch_requests evs = [(token, sessionId s, sequenceId, text)].
Proof.
  run_turn.
  all: intros; simpl in *; simplify_eq; try congruence.
  all: repeat split; try reflexivity.
  all: try match goal with
       | H : reusable _ _ _ = Some _ |- _ => apply reusable_Some in H as [? ?]
       end.
  all: first [ eexists (mkSession _ _), _, _, _;
               split; [apply lookup_insert_eq | reflexivity]
             | eexists _, _, _, _; split; [eassumption | reflexivity] ].
Qed.

(** X17. When no session of the conversation is reusable at the first
    clock reading of a turn and the creation call fails, the turn ends
    without a dispatch and without an eviction, the cache is as it was, and
    the caller receives the error reply. *)
Theorem X17_failed_creation_is_terminal (activity : Activity) (w : World)
    (res : AxiosResult) (e : JsError) (now : Z) :
  let run := botLogic env activity w in
  let evs := events_since w (snd run) in
  head (clock_readings evs) = Some now ->
  reusable env now (sessionCache w !! conversation_id activity) = None ->
  creation_results evs !! 0%nat = Some res ->
  creation_outcome res = Throw e ->
  dispatch_calls evs = 0%nat /\
  cache_deletes evs = [] /\
  creation_results evs = [res] /\
  sessionCache (snd run) = sessionCache w /\
  replies evs = [status_message env; error_reply].
Proof.
  run_turn.
  all: intros; simpl in *; simplify_eq; try congruence.
  all: repeat split; reflexivity.
Qed.

(** X18. When the creation call of the retry fails, the conversation is
    left without an entry in the cache: the stale entry has been evicted
    and nothing replaces it.  The turn ends with the error reply after its
    one dispatch. *)
Theorem X18_failed_retry_leaves_no_entry (activity : Activity) (w : World)
    (res : AxiosResult) (e : JsError) :
  let run := botLogic env activity w in
  let evs := events_since w (snd run) in
  res ∈ creation_results (after_evict evs) ->
  creation_outcome res = Throw e ->
  sessionCache (snd run) !! conversation_id activity = None /\
  cache_deletes evs = [conversation_id activity] /\
  dispatch_calls evs = 1%nat /\
  replies evs = [status_message env; error_reply].
Proof.
  run_turn.
  all: simpl; intros Hin Hout;
    first [ inversion Hin; fail
          | apply list_elem_of_singleton in Hin; subst; try congruence ].
  all: repeat split; try reflexivity; apply lookup_delete_eq.
Qed.

(** X19. After two SESSION_EXPIRED failures the session that the retry has
    created, and whose dispatch the backend has just refused, is the entry
    of the conversation in the cache: the second failure evicts nothing. *)
Theorem X19_refused_session_stays_cached (activity : Activity) (w : World)
    (res1 res2 : AxiosResult) :
  let run := botLogic env activity w in
  let evs := events_since w (snd run) in
  dispatch_results evs !! 0%nat = Some res1 ->
  dispatch_outcome res1 = Throw (Error "SESSION_EXPIRED") ->
  dispatch_results evs !! 1%nat = Some res2 ->
  dispatch_outcome res2 = Throw (Error "SESSION_EXPIRED") ->
  exists handle now token sequenceId text,
    dispatch_requests evs !! 1%nat = Some (token, handle, sequenceId, text) /\
    sessionCache (snd run) !! conversation_id activity
    = Some (mkSession handle now).
Proof.
  run_turn.
  all: intros; simpl in *; simplify_eq; try congruence.
  all: eexists _, _, _, _, _; split; [reflexivity|]; apply lookup_insert_eq.
Qed.

(** X20. Every request of a turn carries the token of the token response;
    every creation request carries the key of the conversation, and every
    dispatch carries the text of the activity and a reading of the clock as
    its sequence id. *)
Theorem X20_turn_requests (activity : Activity) (w : World) :
  let run := botLogic env activity w in
  let evs := events_since w (snd run) in
  Forall (fun request =>
            token_outcome <$> token_results evs = [Return (fst request)] /\
            snd request = "teams-chat-" +:+ conversation_id activity)
         (creation_requests evs) /\
  Forall (fun request =>
            match request with
            | (token, _, sequenceId, text) =>
                token_outcome <$> token_results evs = [Return token] /\
                sequenceId ∈ clock_readings evs /\
                text = activity_text activity
            end)
         (dispatch_requests evs).
Proof.
  run_turn.
  all: simpl; split; repeat constructor; simpl; try congruence; set_solver.
Qed.

End MoreTurn.

(** ** Further properties of the cleanup *)

Section MoreCleanup.

Variable env : Env.

(** The count of a cleanup. *)
Lemma cleanup_count (w : World) :
  fst (cleanup env w)
  = Return (size (filter (swept env (Date_now env (history w))) (sessionCache w))).
Proof.
  rewrite cleanup_run. simpl.
  destruct (cleanup_fold env (Date_now env (history w)) (sessionCache w) 0
              (sessionCache w)) as [_ Hn].
  rewrite Hn. reflexivity.
Qed.

(** X21. The cleanup never removes a session that a resolution at the same
    instant would reuse; and a session it leaves in the cache is one that
    such a resolution would reuse, or one whose age is the timeout exactly. *)
Theorem X21_cleanup_keeps_what_is_reusable (w : World) :
  let now := Date_now env (history w) in
  let after := sessionCache (snd (cleanup env w)) in
  (forall k s, sessionCache w !! k = Some s ->
               reusable env now (Some s) = Some s -> after !! k = Some s) /\
  (forall k s, after !! k = Some s ->
               sessionCache w !! k = Some s /\
               (reusable env now (Some s) = Some s \/
                now - timestamp s = SESSION_TIMEOUT env)).
Proof.
  cbv zeta. split.
  - intros k s Hs Hfresh. apply reusable_Some in Hfresh as [_ Hlt].
    rewrite cleanup_lookup, Hs.
    destruct (decide _) as [Hswept|]; [|reflexivity].
    unfold swept in Hswept. simpl in Hswept. lia.
  - intros k s. rewrite cleanup_lookup.
    destruct (sessionCache w !! k) as [s'|]; [|discriminate].
    destruct (decide _) as [|Hkept]; [discriminate|].
    intros [= ->]. split; [reflexivity|].
    unfold swept in Hkept. simpl in Hkept.
    destruct (Z.eq_dec (Date_now env (history w) - timestamp s)
                (SESSION_TIMEOUT env)) as [|Hne]; [right; assumption|].
    left. apply reusable_Some. split; [reflexivity|lia].
Qed.

(** X22. A cleanup leaves nothing for a second cleanup whose clock does not
    read later: the second one removes no entry and counts 0. *)
Theorem X22_second_cleanup_removes_nothing (w w' : World) :
  sessionCache w' = sessionCache (snd (cleanup env w)) ->
  Date_now env (history w') <= Date_now env (history w) ->
  fst (cleanup env w') = Return 0%nat /\
  sessionCache (snd (cleanup env w')) = sessionCache w'.
Proof.
  intros Hcache Hclock.
  assert (Hkept : forall k s, sessionCache w' !! k = Some s ->
                              ~ swept env (Date_now env (history w')) (k, s)).
  { intros k s. rewrite Hcache, cleanup_lookup.
    destruct (sessionCache w !! k) as [s'|]; [|discriminate].
    destruct (decide _) as [|Hk]; [discriminate|]. intros [= ->].
    unfold swept in *. simpl in *. lia. }
  split.
  - rewrite cleanup_count. f_equal.
    assert (Hnone : filter (swept env (Date_now env (history w')))
                      (sessionCache w') = ∅).
    { apply map_empty_filter. intros k s Hs. apply Hkept, Hs. }
    rewrite Hnone. apply map_size_empty.
  - apply map_eq. intros k. rewrite cleanup_lookup.
    destruct (sessionCache w' !! k) as [s|] eqn:E; [|reflexivity].
    destruct (decide _) as [Hs|]; [|reflexivity].
    exfalso. exact (Hkept k s E Hs).
Qed.

End MoreCleanup.

(** ** Further properties of the streaming endpoint *)

Ltac run_stream_requests := run_stream.

Section MoreStreaming.

Variable env : Env.

Ltac known_frames :=
  repeat match goal with
  | H : error_frame ?env (Error ?m) = _ |- _ =>
      rewrite (error_frame_plain env (Error m) eq_refl) in H; simpl in H
  | H : error_frame ?env (stream_failure ?e) = _ |- _ =>
      let Hr := fresh "Hresponse" in
      destruct (response e) eqn:Hr;
      [ rewrite (error_frame_refused env e _ Hr) in H
      | rewrite (error_frame_unanswered env e Hr) in H ]
  end;
  simplify_eq.

(** X23. When the backend stream is not opened, one of four things has
    happened.  The token call has failed: no creation call, one
    [event: error] frame with the token error, the response ended.  The
    creation call has failed twice: one frame with the creation error,
    the response ended.  The stream request got no answer: one frame with
    the message of the error, the response ended.  The stream request was
    refused with a status: JSON.stringify throws on the response stream in
    the [catch], so nothing is written, the response is not ended, and the
    handler throws. *)
Theorem X23_failure_before_the_stream (query : Query) (w : World) :
  let run := serve_stream env query w in
  let evs := events_since w (snd run) in
  let reported (message : string) :=
    [Frame (error_frame_text (JSON_stringify env (JStr message))); Closed] in
  (forall body, StreamOpened body ∉ stream_results evs) ->
  (fst run = Return tt /\ creation_calls evs = 0%nat /\
   observed evs = reported "Failed to get Salesforce token.") \/
  (fst run = Return tt /\ creation_calls evs = 2%nat /\
   observed evs = reported "Failed to create Einstein AI session.") \/
  (exists e, stream_results evs = [StreamRejected e] /\ response e = None /\
             fst run = Return tt /\ observed evs = reported (message e)) \/
  (exists e r, stream_results evs = [StreamRejected e] /\ response e = Some r /\
               fst run = Throw (TypeError "Converting circular structure to JSON") /\
               observed evs = []).
Proof.
  run_stream_requests.
  all: intros Hnone; try (exfalso; eapply Hnone; constructor; fail).
  all: known_frames.
  all: first [ left; repeat split; reflexivity
             | right; left; repeat split; reflexivity
             | right; right; left; eexists; repeat split; (reflexivity || eassumption)
             | right; right; right; eexists _, _;
               repeat split; (reflexivity || eassumption) ].
Qed.

(** X24. When the creation call of the first resolution fails, the endpoint
    evicts the entry and makes a second creation call; when that one gives
    a handle, the stream is requested with it and the cache holds it. *)
Theorem X24_stream_creates_a_second_time (query : Query) (w : World)
    (res : AxiosResult) (e : JsError) :
  let run := serve_stream env query w in
  let evs := events_since w (snd run) in
  creation_results evs !! 0%nat = Some res ->
  creation_outcome res = Throw e ->
  cache_deletes evs = [stream_conversationId query] /\
  creation_calls evs = 2%nat /\
  (forall res' handle,
     creation_results evs !! 1%nat = Some res' ->
     creation_outcome res' = Return handle ->
     (exists token sequenceId text now,
        stream_requests evs = [(token, handle, sequenceId, text)] /\
        sessionCache (snd run) !! stream_conversationId query
        = Some (mkSession handle now))).
Proof.
  run_stream_requests.
  all: intros; simpl in *; simplify_eq; same_outcomes.
  all: split; [reflexivity|]; split; [reflexivity|].
  all: intros; simplify_eq; same_outcomes.
  all: eexists _, _, _, _; split; [reflexivity|]; apply lookup_insert_eq.
Qed.

(** X25. A stream request that the backend does not accept leaves the
    session it was made with as the entry of the conversation, a 404
    included: nothing is evicted after it.  When the request got no answer
    the caller receives the error frame and the end of the response; when
    it was refused with a status, the [catch] throws in JSON.stringify, so
    the caller receives nothing and the response is not ended. *)
Theorem X25_refused_stream_keeps_the_session (query : Query) (w : World)
    (e : JsError) :
  let run := serve_stream env query w in
  let evs := events_since w (snd run) in
  StreamRejected e ∈ stream_results evs ->
  (exists s token sequenceId text,
     stream_requests evs = [(token, sessionId s, sequenceId, text)] /\
     sessionCache (snd run) !! stream_conversationId query = Some s) /\
  match response e with
  | None =>
      fst run = Return tt /\
      observed evs
      = [Frame (error_frame_text (JSON_stringify env (JStr (message e)))); Closed]
  | Some _ =>
      fst run = Throw (TypeError "Converting circular structure to JSON") /\
      observed evs = []
  end.
Proof.
  run_stream_requests.
  all: intros Hin;
    first [ inversion Hin; fail
          | apply list_elem_of_singleton in Hin; simplify_eq ].
  all: known_frames.
  all: try match goal with
       | H : reusable _ _ _ = Some _ |- _ => apply reusable_Some in H as [? ?]
       end.
  all: split; [|split; reflexivity].
  all: first [ eexists (mkSession _ _), _, _, _;
               split; [reflexivity | apply lookup_insert_eq]
             | eexists _, _, _, _; split; [reflexivity | eassumption] ].
Qed.

(** X26. In every run the three headers of an event stream are set before
    anything else, and the response is ended at most once, as the last
    thing the caller observes.  It is left open in two cases only: the
    backend stream has broken after it was opened (the run is over without
    an error), or the stream request was refused with a status (the
    handler throws in its [catch]). *)
Theorem X26_headers_first_closed_last (query : Query) (w : World) :
  let run := serve_stream env query w in
  let evs := events_since w (snd run) in
  let broken := exists body e, stream_results evs = [StreamOpened body] /\
                               ending body = StreamError e in
  let refused := exists e r, stream_results evs = [StreamRejected e] /\
                             response e = Some r in
  take 3 evs = [EvSetHeader "Content-Type" "text/event-stream";
                EvSetHeader "Cache-Control" "no-cache";
                EvSetHeader "Connection" "keep-alive"] /\
  exists frames,
    (observed evs = (Frame <$> frames) ++ [Closed] /\
     fst run = Return tt /\ ~ broken /\ ~ refused) \/
    (observed evs = Frame <$> frames /\
     ((broken /\ fst run = Return tt) \/
      (refused /\
       fst run = Throw (TypeError "Converting circular structure to JSON")))).
Proof.
  run_stream.
  all: known_frames.
  all: split; [reflexivity|].
  all: first
    [ match goal with
      | H : ending ?b = StreamEnd |- _ =>
          exists (map data_frame (chunks b) ++ [done_frame]); left;
          split; [rewrite fmap_app, <- list_fmap_compose, <- app_assoc; reflexivity|];
          split; [reflexivity|];
          split; [intros (? & ? & ? & ?) | intros (? & ? & ? & ?)];
          simplify_eq; congruence
      | H : ending ?b = StreamError _ |- _ =>
          exists (map data_frame (chunks b)); right;
          split; [rewrite <- list_fmap_compose; reflexivity|];
          left; split; [eauto | reflexivity]
      end
    | exists []; right; split; [reflexivity|]; right; split; [eauto | reflexivity]
    | eexists [_]; left; split; [reflexivity|]; split; [reflexivity|];
      split; [intros (? & ? & ? & ?) | intros (? & ? & ? & ?)];
      simplify_eq; congruence ].
Qed.

(** X27. An empty [conversationId] is treated as a missing one: the request
    is served under ['default-conversation'] and writes the cache at that
    key only. *)
Theorem X27_empty_id_uses_default_key (query : Query) (w : World) :
  query_conversationId query = Some "" ->
  let run := serve_stream env query w in
  let evs := events_since w (snd run) in
  run = serve_stream env (mkQuery None (query_message query)) w /\
  Forall (fun entry => fst entry = "default-conversation") (cache_sets evs) /\
  (forall key, key <> "default-conversation" ->
               sessionCache (snd run) !! key = sessionCache w !! key).
Proof.
  intros Hid.
  assert (Hkey : stream_conversationId query = "default-conversation").
  { unfold stream_conversationId. rewrite Hid. reflexivity. }
  cbv zeta. split.
  { destruct query as [id text]. simpl in Hid. subst id. reflexivity. }
  rewrite <- Hkey.
  destruct (serve_stream_frame env query w) as (Hsets & _ & Hframe & _).
  split; assumption.
Qed.

End MoreStreaming.

(** ** The second copy of the turn handler *)

(** The turn handler ends normally and its first activity, if any, is the
    status message. *)
Lemma botLogic_starts_with_status (env : Env) (activity : Activity) (w : World) :
  let run := botLogic env activity w in
  let evs := events_since w (snd run) in
  fst run = Return tt /\
  (activity_type activity = "message" ->
   head (replies evs) = Some (status_message env)).
Proof.
  run_turn.
  all: split; [reflexivity|]; intros ?; first [reflexivity | contradiction].
Qed.

Section EarlyStatus.

Variable env : Env.

(** X28. The second copy of the turn handler answers every activity with
    the fixed status message first and never throws.  On an activity that
    is not a message it does nothing else: no backend call, no change of
    the cache.  On a message it goes on as the turn handler of the first
    copy does with no status text configured. *)
Theorem X28_early_status_on_every_activity (activity : Activity) (w : World) :
  let run := botLogic_early_status env activity w in
  let evs := events_since w (snd run) in
  fst run = Return tt /\
  head (replies evs) = Some (JStr "⏳ Processing your request...") /\
  (activity_type activity <> "message" ->
   evs = [EvSendActivity (JStr "⏳ Processing your request...")] /\
   sessionCache (snd run) = sessionCache w) /\
  (activity_type activity = "message" ->
   run = botLogic (without_status env) activity w).
Proof.
  cbv zeta. destruct (String.eqb_spec (activity_type activity) "message") as [Hm|Hm].
  - rewrite (botLogic_early_status_message env activity w Hm).
    destruct (botLogic_starts_with_status (without_status env) activity w)
      as [Hret Hhead].
    split; [exact Hret|]. split; [exact (Hhead Hm)|].
    split; [intros; contradiction | reflexivity].
  - destruct (botLogic_early_status_other env activity w Hm) as [_ Hrun].
    rewrite Hrun. simpl. rewrite events_since_record.
    split; [reflexivity|]. split; [reflexivity|].
    split; [intros _; split; reflexivity | intros; contradiction].
Qed.

End EarlyStatus.

(** ** The further properties at scripted environments *)

Ltac by_evaluation :=
  vm_compute;
  first [ reflexivity
        | discriminate
        | constructor; fail
        | eexists; reflexivity ].

Lemma X2_witness :
  fst (getSalesforceToken token_without_field empty_world) = Return JUndefined.
Proof.
  apply (X2_token_without_field_is_undefined token_without_field empty_world
           (mkResponse 200 (JObj [("token_type", JStr "Bearer")]))
           [("token_type", JStr "Bearer")]); by_evaluation.
Defined.

Lemma X3_witness :
  let run := getOrCreateSession session_without_field "c1" (JStr "T") empty_world in
  fst run = Return JUndefined /\
  sessionCache (snd run) !! "c1" = Some (mkSession JUndefined 1000).
Proof.
  apply (X3_session_without_field_is_cached session_without_field "c1" (JStr "T")
           empty_world (mkResponse 200 (JObj [("status", JStr "created")]))
           [("status", JStr "created")]); by_evaluation.
Defined.

Lemma X5_witness :
  fst (sendEinsteinMessage answers_at_once (JStr "T") (JStr "S0") (JStr "hello")
         empty_world) <> Throw (Error "SESSION_EXPIRED").
Proof.
  apply (X5_answered_dispatch_never_expires answers_at_once (JStr "T") (JStr "S0")
           (JStr "hello") empty_world
           (mkResponse 200 (JObj [("messages", JArr [JObj [("message", JStr "hi")]])]))).
  by_evaluation.
Defined.

Lemma X6_witness :
  fst (sendEinsteinMessage answers_no_message (JStr "T") (JStr "S0") (JStr "hello")
         empty_world) = Throw (Error "Failed to send message to Einstein AI.").
Proof.
  destruct (X6_malformed_answers answers_no_message (JStr "T") (JStr "S0")
              (JStr "hello") empty_world
              (mkResponse 200 (JObj [("messages", JArr [])]))
              [("messages", JArr [])]) as [Hempty _];
    [by_evaluation | by_evaluation |].
  apply Hempty. right. reflexivity.
Defined.

Lemma X7_witness :
  fst (sendEinsteinMessage answers_404_json (JStr "T") (JStr "S0") (JStr "hello")
         empty_world) = Throw (Error "SESSION_EXPIRED").
Proof.
  apply (X7_not_found_is_expired_for_any_body answers_404_json (JStr "T")
           (JStr "S0") (JStr "hello") empty_world
           (mkError "AxiosError" "Request failed"
                    (Some (mkResponse 404 json_error_body)))
           (mkResponse 404 json_error_body)); by_evaluation.
Defined.

Lemma X8_witness :
  sessionCache (snd (getOrCreateSession answers_at_once "c2" (JStr "T") one_session))
    !! "c1" = sessionCache one_session !! "c1".
Proof.
  apply (X8_resolution_is_local answers_at_once "c2" "c1" (JStr "T") one_session).
  discriminate.
Defined.

Lemma X9_witness :
  let w' := snd (getOrCreateSession expires_once "c1" (JStr "T") empty_world) in
  let run' := getOrCreateSession expires_once "c1" (JStr "T") w' in
  fst run' = Return (JStr "S1") /\
  creation_calls (events_since w' (snd run')) = 0%nat /\
  sessionCache (snd run') = sessionCache w'.
Proof.
  apply (X9_created_session_is_reused expires_once "c1" (JStr "T") (JStr "T")
           empty_world
           (snd (getOrCreateSession expires_once "c1" (JStr "T") empty_world))
           (JStr "S1")); by_evaluation.
Defined.

Lemma X10_witness :
  let run := getOrCreateSession idle_half_hour "c1" (JStr "T") one_session in
  let run' := getOrCreateSession idle_half_hour "c1" (JStr "T") (snd run) in
  fst run = Return (JStr "S0") /\
  sessionCache (snd run) !! "c1" = Some (mkSession (JStr "S0") 0) /\
  creation_calls (events_since (snd run) (snd run')) = 1%nat.
Proof.
  apply (X10_reuse_does_not_renew idle_half_hour "c1" (JStr "T") (JStr "T")
           one_session
           (snd (getOrCreateSession idle_half_hour "c1" (JStr "T") one_session))
           (mkSession (JStr "S0") 0)); by_evaluation.
Defined.

Lemma X11_witness :
  creation_calls
    (events_since one_session
       (snd (getOrCreateSession (with_minutes 0 answers_at_once) "c1" (JStr "T")
               one_session))) = 1%nat.
Proof.
  apply (X11_no_reuse_without_timeout (with_minutes 0 answers_at_once) "c1"
           (JStr "T") one_session).
  - by_evaluation.
  - intros s Hs. vm_compute in Hs. injection Hs as <-. by_evaluation.
Defined.

Lemma X14_witness :
  sessionCache (snd (botLogic answers_at_once hello two_sessions)) !! "c2"
  = sessionCache two_sessions !! "c2".
Proof.
  apply (X14_turn_is_local answers_at_once hello two_sessions "c2"). discriminate.
Defined.

Lemma X15_witness :
  let evs := events_since one_session (snd (botLogic answers_at_once hello one_session)) in
  dispatch_results evs = [reply_ok "hi"] /\
  cache_deletes evs = [] /\
  (creation_calls evs <= 1)%nat /\
  replies evs = [status_message answers_at_once; JStr "hi"].
Proof.
  apply (X15_first_reply_ends_turn answers_at_once hello one_session
           (reply_ok "hi") (JStr "hi")); by_evaluation.
Defined.

Lemma X16_witness :
  let run := botLogic answers_500_text hello one_session in
  let evs := events_since one_session (snd run) in
  dispatch_results evs = [failed 500 (JStr "Internal Server Error")] /\
  cache_deletes evs = [] /\
  replies evs = [status_message answers_500_text; error_reply] /\
  exists s token sequenceId text,
    sessionCache (snd run) !! conversation_id hello = Some s /\
    dispatch_requests evs = [(token, sessionId s, sequenceId, text)].
Proof.
  apply (X16_other_failure_is_terminal answers_500_text hello one_session
           (failed 500 (JStr "Internal Server Error"))
           (Error "Failed to send message to Einstein AI.")); by_evaluation.
Defined.

Lemma X17_witness :
  let run := botLogic creation_down hello empty_world in
  let evs := events_since empty_world (snd run) in
  dispatch_calls evs = 0%nat /\
  cache_deletes evs = [] /\
  creation_results evs = [Rejected network_error] /\
  sessionCache (snd run) = sessionCache empty_world /\
  replies evs = [status_message creation_down; error_reply].
Proof.
  apply (X17_failed_creation_is_terminal creation_down hello empty_world
           (Rejected network_error)
           (Error "Failed to create Einstein AI session.") 1000); by_evaluation.
Defined.

Lemma X18_witness :
  let run := botLogic retry_cannot_create hello one_session in
  let evs := events_since one_session (snd run) in
  sessionCache (snd run) !! conversation_id hello = None /\
  cache_deletes evs = [conversation_id hello] /\
  dispatch_calls evs = 1%nat /\
  replies evs = [status_message retry_cannot_create; error_reply].
Proof.
  apply (X18_failed_retry_leaves_no_entry retry_cannot_create hello one_session
           (Rejected network_error)
           (Error "Failed to create Einstein AI session.")); by_evaluation.
Defined.

Lemma X19_witness :
  let run := botLogic expires_twice hello one_session in
  let evs := events_since one_session (snd run) in
  exists handle now token sequenceId text,
    dispatch_requests evs !! 1%nat = Some (token, handle, sequenceId, text) /\
    sessionCache (snd run) !! conversation_id hello = Some (mkSession handle now).
Proof.
  apply (X19_refused_session_stays_cached expires_twice hello one_session
           (failed 404 (JStr "Not Found")) (failed 404 (JStr "Not Found")));
    by_evaluation.
Defined.

Lemma X22_witness :
  let w' := snd (cleanup past_timeout two_sessions) in
  sessionCache w' !! "c1" = None /\
  fst (cleanup past_timeout w') = Return 0%nat /\
  sessionCache (snd (cleanup past_timeout w')) = sessionCache w'.
Proof.
  split; [by_evaluation|].
  apply (X22_second_cleanup_removes_nothing past_timeout two_sessions
           (snd (cleanup past_timeout two_sessions))); by_evaluation.
Defined.

Lemma X23_witness :
  let run := serve_stream stream_refused (anonymous "hello") empty_world in
  let evs := events_since empty_world (snd run) in
  fst run = Throw (TypeError "Converting circular structure to JSON") /\
  observed evs = [].
Proof.
  destruct (X23_failure_before_the_stream stream_refused (anonymous "hello")
              empty_world)
    as [(Hret & _)|[(Hret & _)|[(e & _ & _ & Hret & _)|(e & r & _ & _ & Hret & Hobs)]]].
  - intros body. vm_compute. intros H. apply list_elem_of_singleton in H.
    discriminate.
  - vm_compute in Hret. discriminate.
  - vm_compute in Hret. discriminate.
  - vm_compute in Hret. discriminate.
  - split; assumption.
Defined.

Lemma X24_witness :
  let run := serve_stream creates_at_second_try (anonymous "hello") empty_world in
  let evs := events_since empty_world (snd run) in
  cache_deletes evs = ["default-conversation"] /\
  creation_calls evs = 2%nat /\
  exists token sequenceId text now,
    stream_requests evs = [(token, JStr "S2", sequenceId, text)] /\
    sessionCache (snd run) !! "default-conversation"
    = Some (mkSession (JStr "S2") now).
Proof.
  destruct (X24_stream_creates_a_second_time creates_at_second_try
              (anonymous "hello") empty_world (Rejected network_error)
              (Error "Failed to create Einstein AI session."))
    as (Hdel & Hcalls & Hsecond); [by_evaluation | by_evaluation |].
  refine (conj Hdel (conj Hcalls (Hsecond (session_ok "S2") (JStr "S2") _ _)));
    by_evaluation.
Defined.

Lemma X25_witness :
  let query := mkQuery (Some "c1") (Some "hello") in
  let run := serve_stream stream_refused query one_session in
  let evs := events_since one_session (snd run) in
  (exists s token sequenceId text,
     stream_requests evs = [(token, sessionId s, sequenceId, text)] /\
     sessionCache (snd run) !! "c1" = Some s) /\
  fst run = Throw (TypeError "Converting circular structure to JSON") /\
  observed evs = [].
Proof.
  apply (X25_refused_stream_keeps_the_session stream_refused
           (mkQuery (Some "c1") (Some "hello")) one_session
           (mkError "AxiosError" "Request failed"
              (Some (mkResponse 404 (JStr "session not found"))))).
  by_evaluation.
Defined.

Lemma X27_witness :
  let query := mkQuery (Some "") (Some "hello") in
  let run := serve_stream streams_two query one_session in
  run = serve_stream streams_two (anonymous "hello") one_session /\
  sessionCache (snd run) !! "c1" = sessionCache one_session !! "c1".
Proof.
  destruct (X27_empty_id_uses_default_key streams_two
              (mkQuery (Some "") (Some "hello")) one_session)
    as (Hsame & _ & Hframe); [reflexivity|].
  split; [exact Hsame|]. apply Hframe. discriminate.
Defined.

(** ** The cached session across turns and requests *)

Section Reuse.

Variable env : Env.

(** X29. A turn of a conversation whose session is in the cache, younger
    than the timeout when the turn resolves it, dispatches the message with
    that session: the first dispatch carries its handle, and the turn
    makes a creation call only after an eviction. *)
Theorem X29_turn_uses_the_cached_session (activity : Activity) (w : World)
    (s : Session) (now : Z) :
  let run := botLogic env activity w in
  let evs := events_since w (snd run) in
  sessionCache w !! conversation_id activity = Some s ->
  head (clock_readings evs) = Some now ->
  now - timestamp s < SESSION_TIMEOUT env ->
  (exists token sequenceId text,
     dispatch_requests evs !! 0%nat = Some (token, sessionId s, sequenceId, text)) /\
  creation_calls evs = length (cache_deletes evs).
Proof.
  run_turn.
  all: simpl; intros Hs Hnow Hlt; simplify_eq.
  all: try match goal with
       | H : reusable _ _ _ = None |- _ =>
           exfalso; apply reusable_None in H; apply H; eauto
       | H : reusable _ _ _ = Some _ |- _ =>
           apply reusable_Some in H as [? ?]; simplify_eq
       end.
  all: split; [eexists _, _, _; reflexivity | reflexivity].
Qed.

(** X30. The stream request of a streaming request carries the token of
    the token response, a reading of the clock as its sequence id, and the
    [message] of the query as its text: [undefined] when the query has
    none. *)
Theorem X30_stream_request (query : Query) (w : World) :
  let run := serve_stream env query w in
  let evs := events_since w (snd run) in
  Forall (fun request =>
            match request with
            | (token, _, sequenceId, text) =>
                token_outcome <$> token_results evs = [Return token] /\
                sequenceId ∈ clock_readings evs /\
                text = stream_text query /\
                (query_message query = None -> text = JUndefined)
            end)
         (stream_requests evs) /\
  (length (stream_requests evs) <= 1)%nat.
Proof.
  assert (Htext : query_message query = None -> stream_text query = JUndefined).
  { unfold stream_text. intros ->. reflexivity. }
  revert Htext. run_stream_requests.
  all: intros Htext; split; [|simpl; lia].
  all: repeat constructor; simpl; try assumption; try congruence; set_solver.
Qed.

End Reuse.

Lemma X29_witness :
  let evs := events_since one_session
               (snd (botLogic answers_at_once hello one_session)) in
  (exists token sequenceId text,
     dispatch_requests evs !! 0%nat
     = Some (token, sessionId (mkSession (JStr "S0") 0), sequenceId, text)) /\
  creation_calls evs = length (cache_deletes evs).
Proof.
  apply (X29_turn_uses_the_cached_session answers_at_once hello one_session
           (mkSession (JStr "S0") 0) 1000); by_computation.
Defined.
